(** * llama: a terminal directory browser (main.go)

    A shallow embedding of the navigation / layout state machine of
    [main.go]: the [model] struct, its [Update] and [View] methods, the
    cursor moves, the per-directory position memory, the type-to-select
    search and the preview loader.

    Conventions.
    - Go's [int] is a 64-bit two's complement integer.  It is modelled
      as [Z]; the [+], [-], [*], [++] and [--] on the fields of the model
      go through [wrap], so overflow is in the model.  Loop counters,
      which are bounded by the loop's limit, and divisions by a constant
      are written with the operations of [Z].
    - Go strings are byte strings; Rocq's [string] (a list of 8-bit
      [ascii]) is used for them and [len] is the byte length.
    - A run-time panic (division by zero, index or slice bounds out of
      range, an explicit [panic(err)]) is a value [Panic _] of the
      [result] type.
    - What the program gets from the operating system and from the
      libraries it imports (directory listing, stat, file contents, the
      fuzzy matcher, the lipgloss styles, the path functions) is a field
      of the record [Env]. *)

From Stdlib Require Import ZArith Lia String Ascii List Bool.
From stdpp Require Import base gmap strings list.

Local Open Scope string_scope.
Local Open Scope list_scope.
Local Open Scope Z_scope.

(** ** Go's [int] *)

Definition int_min : Z := - 2 ^ 63.
Definition int_max : Z := 2 ^ 63 - 1.

(** The value an arithmetic result takes in a 64-bit signed register. *)
Definition wrap (x : Z) : Z := (x + 2 ^ 63) mod 2 ^ 64 - 2 ^ 63.

Definition is_int (x : Z) : Prop := int_min <= x <= int_max.

Definition int_add (a b : Z) : Z := wrap (a + b).
Definition int_sub (a b : Z) : Z := wrap (a - b).
Definition int_mul (a b : Z) : Z := wrap (a * b).

Infix "+ᵢ" := int_add (at level 50, left associativity).
Infix "-ᵢ" := int_sub (at level 50, left associativity).
Infix "*ᵢ" := int_mul (at level 40, left associativity).

(** ** Panics *)

Inductive panic : Set :=
| DivideByZero        (* runtime error: integer divide by zero *)
| IndexOutOfRange     (* runtime error: index out of range *)
| SliceBoundsOutOfRange (* runtime error: slice bounds out of range *)
| ExplicitPanic.      (* panic(err) *)

Inductive result (A : Type) : Type :=
| Ok (a : A)
| Panic (p : panic).
Arguments Ok {A} a.
Arguments Panic {A} p.

Definition bind {A B : Type} (x : result A) (f : A -> result B) : result B :=
  match x with
  | Ok a => f a
  | Panic p => Panic p
  end.

Notation "'let!' x ':=' e 'in' k" := (bind e (fun x => k))
  (at level 10, x pattern, e at level 200, k at level 200, only parsing).

(** [a / b] and [a % b] on Go ints: truncated towards zero, and a
    run-time panic when the divisor is zero. *)
Definition int_quo (a b : Z) : result Z :=
  if b =? 0 then Panic DivideByZero else Ok (wrap (Z.quot a b)).
Definition int_rem (a b : Z) : result Z :=
  if b =? 0 then Panic DivideByZero else Ok (Z.rem a b).

(** ** Strings and slices *)

Definition len {A : Type} (l : list A) : Z := Z.of_nat (length l).
Definition slen (s : string) : Z := Z.of_nat (String.length s).

(** [strings.Repeat(s, count)].  Go panics on a negative count; the one
    call site passes [max - len(name)] where [max] is the running
    maximum of those lengths, so the count is never negative there. *)
Fixpoint repeat_nat (s : string) (n : nat) : string :=
  match n with
  | O => ""
  | S n' => s +:+ repeat_nat s n'
  end.
Definition Repeat (s : string) (count : Z) : string := repeat_nat s (Z.to_nat count).

(** [strings.Join(elems, sep)]. *)
Fixpoint Join (elems : list string) (sep : string) : string :=
  match elems with
  | [] => ""
  | [x] => x
  | x :: rest => x +:+ sep +:+ Join rest sep
  end.

Fixpoint drop_s (n : nat) (s : string) : string :=
  match n, s with
  | O, _ => s
  | S n', String _ s' => drop_s n' s'
  | S _, EmptyString => EmptyString
  end.

Fixpoint take_s (n : nat) (s : string) : string :=
  match n, s with
  | O, _ => EmptyString
  | S n', String a s' => String a (take_s n' s')
  | S _, EmptyString => EmptyString
  end.

(** The slice expression [s[lo:]] on a string. *)
Definition slice_from (s : string) (lo : Z) : result string :=
  if (lo <? 0) || (slen s <? lo) then Panic SliceBoundsOutOfRange
  else Ok (drop_s (Z.to_nat lo) s).

(** The slice expression [s[:hi]] on a string. *)
Definition slice_to (s : string) (hi : Z) : result string :=
  if (hi <? 0) || (slen s <? hi) then Panic SliceBoundsOutOfRange
  else Ok (take_s (Z.to_nat hi) s).

(** The slice expression [l[lo:hi]] on a slice whose capacity is its
    length. *)
Definition slice_list {A : Type} (l : list A) (lo hi : Z) : result (list A) :=
  if (lo <? 0) || (hi <? lo) || (len l <? hi) then Panic SliceBoundsOutOfRange
  else Ok (firstn (Z.to_nat (hi - lo)) (skipn (Z.to_nat lo) l)).

(** [strings.Replace(s, old, new, n)] for a non-empty [old]: the first
    [n] non-overlapping occurrences, all of them when [n < 0].  [skip]
    counts the bytes of a matched [old] still to be dropped. *)
Fixpoint replace_go (old new : string) (s : string) (skip : nat) (n : Z) : string :=
  match s with
  | EmptyString => EmptyString
  | String a s' =>
      match skip with
      | S k => replace_go old new s' k n
      | O =>
          if negb (n =? 0) && String.prefix old s
          then new +:+ replace_go old new s' (String.length old - 1)%nat
                                 (if n <? 0 then n else n - 1)
          else String a (replace_go old new s' O n)
      end
  end.

(** With an empty [old] Go inserts [new] before the first byte (and
    after each later UTF-8 sequence, up to [n] insertions); only [n = 1]
    is used with a possibly empty [old] here. *)
Definition Replace (s old new : string) (n : Z) : string :=
  match old with
  | EmptyString => if n =? 0 then s else new +:+ s
  | _ => replace_go old new s O n
  end.

(** ** [utf8.Valid]

    Go accepts exactly the well-formed byte sequences of the Unicode
    standard: no overlong forms, no surrogates, nothing above U+10FFFF. *)

Definition byte_of (a : ascii) : Z := Z.of_N (N_of_ascii a).

Definition between (lo hi : Z) (a : ascii) : bool :=
  (lo <=? byte_of a) && (byte_of a <=? hi).

Fixpoint Valid (p : string) : bool :=
  match p with
  | EmptyString => true
  | String b0 p1 =>
      if byte_of b0 <? 0x80 then Valid p1
      else if between 0xC2 0xDF b0 then
        match p1 with
        | String b1 p2 => between 0x80 0xBF b1 && Valid p2
        | _ => false
        end
      else if between 0xE0 0xEF b0 then
        match p1 with
        | String b1 (String b2 p3) =>
            between (if byte_of b0 =? 0xE0 then 0xA0 else 0x80)
                    (if byte_of b0 =? 0xED then 0x9F else 0xBF) b1
            && between 0x80 0xBF b2 && Valid p3
        | _ => false
        end
      else if between 0xF0 0xF4 b0 then
        match p1 with
        | String b1 (String b2 (String b3 p4)) =>
            between (if byte_of b0 =? 0xF0 then 0x90 else 0x80)
                    (if byte_of b0 =? 0xF4 then 0x8F else 0xBF) b1
            && between 0x80 0xBF b2 && between 0x80 0xBF b3 && Valid p4
        | _ => false
        end
      else false
  end.

(** ** Data model *)

(** [fs.DirEntry], as far as the program looks at it. *)
Record DirEntry : Set := { Name : string; IsDir : bool }.

Module position.
Record t : Set := mk { c : Z; r : Z; offset : Z }.
End position.

(** [fuzzy.Match] of github.com/sahilm/fuzzy. *)
Record Match : Set := { Index : Z; MatchedIndexes : list Z }.

(** The collaborators of the program. *)
Record Env : Type := {
  (* os.ReadDir: the entries sorted by file name, [None] on an error *)
  os_ReadDir : string -> option (list DirEntry);
  (* os.Stat(path) followed by IsDir(), [None] on an error *)
  os_Stat_IsDir : string -> option bool;
  (* os.Open followed by io.ReadAll, whose error is dropped by the
     caller: the error text of Open, or the bytes read *)
  os_Open_ReadAll : string -> string + string;
  (* os.UserHomeDir, [None] on an error *)
  os_UserHomeDir : option string;
  filepath_Base : string -> string;
  filepath_Join : string -> string -> string;
  path_Join : string -> string -> string;
  (* fuzzy.Find(pattern, data): the matches, best first *)
  fuzzy_Find : string -> list string -> list Match;
  (* the lipgloss styles of the var block and lipgloss.JoinHorizontal *)
  warning_Render : string -> string;
  cursor_Render : string -> string;
  bar_Render : string -> string;
  search_Render : string -> string;
  preview_Render : Z -> string -> string;
  JoinHorizontalTop : string -> string -> string
}.

(** *** Messages and commands of the bubbletea loop *)

Inductive KeyType : Set :=
| KeyRunes | KeyEnter | KeyBackspace | KeyEsc | KeyCtrlC | KeySpace
| KeyUp | KeyDown | KeyLeft | KeyRight
| KeyShiftUp | KeyShiftDown | KeyShiftLeft | KeyShiftRight
| KeyTab.

(** [tea.Key]; [Runes] holds [string(msg.Runes)]. *)
Record Key : Set := { Type_ : KeyType; Runes : string; Alt : bool }.

(** [Key.String()], the text [key.Matches] compares with the bindings. *)
Definition Key_String (k : Key) : string :=
  (if Alt k then "alt+" else "") +:+
  match Type_ k with
  | KeyRunes => Runes k
  | KeyEnter => "enter"
  | KeyBackspace => "backspace"
  | KeyEsc => "esc"
  | KeyCtrlC => "ctrl+c"
  | KeySpace => " "
  | KeyUp => "up"
  | KeyDown => "down"
  | KeyLeft => "left"
  | KeyRight => "right"
  | KeyShiftUp => "shift+up"
  | KeyShiftDown => "shift+down"
  | KeyShiftLeft => "shift+left"
  | KeyShiftRight => "shift+right"
  | KeyTab => "tab"
  end.

Inductive Msg : Set :=
| WindowSizeMsg (Width Height : Z)
| KeyMsg (k : Key)
| clearSearchMsg (id : Z)
| previewMsg (filePath : string)
| otherMsg.                       (* any other message type *)

Inductive Cmd : Set :=
| nilCmd
| Quit                              (* tea.Quit *)
| TickClearSearch (searchId : Z)    (* tea.Tick(2s) sending clearSearchMsg(searchId) *)
| ExecProcess (filePath : string)   (* the editor on filePath *)
| previewCmdOf                      (* the method value m.previewCmd *)
| SequenceEnterAltScreenPreview     (* tea.Sequence(tea.EnterAltScreen, m.previewCmd) *)
| ExitAltScreen.

(** *** The model *)

Record model : Type := {
  path : string;                     (* Current dir path we are looking at. *)
  files : list DirEntry;             (* Files we are looking at. *)
  c : Z; r : Z;                      (* Selector position in columns and rows. *)
  columns : Z; rows : Z;             (* Displayed amount of rows and columns. *)
  width : Z; height : Z;             (* Terminal size. *)
  offset : Z;                        (* Scroll position. *)
  positions : gmap string position.t; (* Map of cursor positions per path. *)
  search : string;                   (* Type to select files with this value. *)
  searchMode : bool;                 (* Whether type-to-select is active. *)
  searchId : Z;                      (* Search id to indicate what search we are currently on. *)
  matchedIndexes : list Z;           (* List of char found indexes. *)
  prevName : string;                 (* Base name of previous directory before "up". *)
  findPrevName : bool;               (* On View(), set c&r to point to prevName. *)
  exitCode : Z;                      (* Exit code. *)
  previewMode : bool;                (* Whether preview is active. *)
  previewContent : string            (* Content of preview. *)
}.

(** Field assignments [m.f = v]. *)
Definition set_path (m : model) (v : string) : model :=
  {| path := v; files := files m; c := c m; r := r m; columns := columns m; rows := rows m;
     width := width m; height := height m; offset := offset m; positions := positions m;
     search := search m; searchMode := searchMode m; searchId := searchId m;
     matchedIndexes := matchedIndexes m; prevName := prevName m;
     findPrevName := findPrevName m; exitCode := exitCode m;
     previewMode := previewMode m; previewContent := previewContent m |}.
Definition set_files (m : model) (v : list DirEntry) : model :=
  {| path := path m; files := v; c := c m; r := r m; columns := columns m; rows := rows m;
     width := width m; height := height m; offset := offset m; positions := positions m;
     search := search m; searchMode := searchMode m; searchId := searchId m;
     matchedIndexes := matchedIndexes m; prevName := prevName m;
     findPrevName := findPrevName m; exitCode := exitCode m;
     previewMode := previewMode m; previewContent := previewContent m |}.
Definition set_c (m : model) (v : Z) : model :=
  {| path := path m; files := files m; c := v; r := r m; columns := columns m; rows := rows m;
     width := width m; height := height m; offset := offset m; positions := positions m;
     search := search m; searchMode := searchMode m; searchId := searchId m;
     matchedIndexes := matchedIndexes m; prevName := prevName m;
     findPrevName := findPrevName m; exitCode := exitCode m;
     previewMode := previewMode m; previewContent := previewContent m |}.
Definition set_r (m : model) (v : Z) : model :=
  {| path := path m; files := files m; c := c m; r := v; columns := columns m; rows := rows m;
     width := width m; height := height m; offset := offset m; positions := positions m;
     search := search m; searchMode := searchMode m; searchId := searchId m;
     matchedIndexes := matchedIndexes m; prevName := prevName m;
     findPrevName := findPrevName m; exitCode := exitCode m;
     previewMode := previewMode m; previewContent := previewContent m |}.
Definition set_columns (m : model) (v : Z) : model :=
  {| path := path m; files := files m; c := c m; r := r m; columns := v; rows := rows m;
     width := width m; height := height m; offset := offset m; positions := positions m;
     search := search m; searchMode := searchMode m; searchId := searchId m;
     matchedIndexes := matchedIndexes m; prevName := prevName m;
     findPrevName := findPrevName m; exitCode := exitCode m;
     previewMode := previewMode m; previewContent := previewContent m |}.
Definition set_rows (m : model) (v : Z) : model :=
  {| path := path m; files := files m; c := c m; r := r m; columns := columns m; rows := v;
     width := width m; height := height m; offset := offset m; positions := positions m;
     search := search m; searchMode := searchMode m; searchId := searchId m;
     matchedIndexes := matchedIndexes m; prevName := prevName m;
     findPrevName := findPrevName m; exitCode := exitCode m;
     previewMode := previewMode m; previewContent := previewContent m |}.
Definition set_width (m : model) (v : Z) : model :=
  {| path := path m; files := files m; c := c m; r := r m; columns := columns m; rows := rows m;
     width := v; height := height m; offset := offset m; positions := positions m;
     search := search m; searchMode := searchMode m; searchId := searchId m;
     matchedIndexes := matchedIndexes m; prevName := prevName m;
     findPrevName := findPrevName m; exitCode := exitCode m;
     previewMode := previewMode m; previewContent := previewContent m |}.
Definition set_height (m : model) (v : Z) : model :=
  {| path := path m; files := files m; c := c m; r := r m; columns := columns m; rows := rows m;
     width := width m; height := v; offset := offset m; positions := positions m;
     search := search m; searchMode := searchMode m; searchId := searchId m;
     matchedIndexes := matchedIndexes m; prevName := prevName m;
     findPrevName := findPrevName m; exitCode := exitCode m;
     previewMode := previewMode m; previewContent := previewContent m |}.
Definition set_offset (m : model) (v : Z) : model :=
  {| path := path m; files := files m; c := c m; r := r m; columns := columns m; rows := rows m;
     width := width m; height := height m; offset := v; positions := positions m;
     search := search m; searchMode := searchMode m; searchId := searchId m;
     matchedIndexes := matchedIndexes m; prevName := prevName m;
     findPrevName := findPrevName m; exitCode := exitCode m;
     previewMode := previewMode m; previewContent := previewContent m |}.
Definition set_positions (m : model) (v : gmap string position.t) : model :=
  {| path := path m; files := files m; c := c m; r := r m; columns := columns m; rows := rows m;
     width := width m; height := height m; offset := offset m; positions := v;
     search := search m; searchMode := searchMode m; searchId := searchId m;
     matchedIndexes := matchedIndexes m; prevName := prevName m;
     findPrevName := findPrevName m; exitCode := exitCode m;
     previewMode := previewMode m; previewContent := previewContent m |}.
Definition set_search (m : model) (v : string) : model :=
  {| path := path m; files := files m; c := c m; r := r m; columns := columns m; rows := rows m;
     width := width m; height := height m; offset := offset m; positions := positions m;
     search := v; searchMode := searchMode m; searchId := searchId m;
     matchedIndexes := matchedIndexes m; prevName := prevName m;
     findPrevName := findPrevName m; exitCode := exitCode m;
     previewMode := previewMode m; previewContent := previewContent m |}.
Definition set_searchMode (m : model) (v : bool) : model :=
  {| path := path m; files := files m; c := c m; r := r m; columns := columns m; rows := rows m;
     width := width m; height := height m; offset := offset m; positions := positions m;
     search := search m; searchMode := v; searchId := searchId m;
     matchedIndexes := matchedIndexes m; prevName := prevName m;
     findPrevName := findPrevName m; exitCode := exitCode m;
     previewMode := previewMode m; previewContent := previewContent m |}.
Definition set_searchId (m : model) (v : Z) : model :=
  {| path := path m; files := files m; c := c m; r := r m; columns := columns m; rows := rows m;
     width := width m; height := height m; offset := offset m; positions := positions m;
     search := search m; searchMode := searchMode m; searchId := v;
     matchedIndexes := matchedIndexes m; prevName := prevName m;
     findPrevName := findPrevName m; exitCode := exitCode m;
     previewMode := previewMode m; previewContent := previewContent m |}.
Definition set_matchedIndexes (m : model) (v : list Z) : model :=
  {| path := path m; files := files m; c := c m; r := r m; columns := columns m; rows := rows m;
     width := width m; height := height m; offset := offset m; positions := positions m;
     search := search m; searchMode := searchMode m; searchId := searchId m;
     matchedIndexes := v; prevName := prevName m;
     findPrevName := findPrevName m; exitCode := exitCode m;
     previewMode := previewMode m; previewContent := previewContent m |}.
Definition set_prevName (m : model) (v : string) : model :=
  {| path := path m; files := files m; c := c m; r := r m; columns := columns m; rows := rows m;
     width := width m; height := height m; offset := offset m; positions := positions m;
     search := search m; searchMode := searchMode m; searchId := searchId m;
     matchedIndexes := matchedIndexes m; prevName := v;
     findPrevName := findPrevName m; exitCode := exitCode m;
     previewMode := previewMode m; previewContent := previewContent m |}.
Definition set_findPrevName (m : model) (v : bool) : model :=
  {| path := path m; files := files m; c := c m; r := r m; columns := columns m; rows := rows m;
     width := width m; height := height m; offset := offset m; positions := positions m;
     search := search m; searchMode := searchMode m; searchId := searchId m;
     matchedIndexes := matchedIndexes m; prevName := prevName m;
     findPrevName := v; exitCode := exitCode m;
     previewMode := previewMode m; previewContent := previewContent m |}.
Definition set_exitCode (m : model) (v : Z) : model :=
  {| path := path m; files := files m; c := c m; r := r m; columns := columns m; rows := rows m;
     width := width m; height := height m; offset := offset m; positions := positions m;
     search := search m; searchMode := searchMode m; searchId := searchId m;
     matchedIndexes := matchedIndexes m; prevName := prevName m;
     findPrevName := findPrevName m; exitCode := v;
     previewMode := previewMode m; previewContent := previewContent m |}.
Definition set_previewMode (m : model) (v : bool) : model :=
  {| path := path m; files := files m; c := c m; r := r m; columns := columns m; rows := rows m;
     width := width m; height := height m; offset := offset m; positions := positions m;
     search := search m; searchMode := searchMode m; searchId := searchId m;
     matchedIndexes := matchedIndexes m; prevName := prevName m;
     findPrevName := findPrevName m; exitCode := exitCode m;
     previewMode := v; previewContent := previewContent m |}.
Definition set_previewContent (m : model) (v : string) : model :=
  {| path := path m; files := files m; c := c m; r := r m; columns := columns m; rows := rows m;
     width := width m; height := height m; offset := offset m; positions := positions m;
     search := search m; searchMode := searchMode m; searchId := searchId m;
     matchedIndexes := matchedIndexes m; prevName := prevName m;
     findPrevName := findPrevName m; exitCode := exitCode m;
     previewMode := previewMode m; previewContent := v |}.

(** ** The cursor moves *)

(** The bound [(m.columns-1)*m.rows+m.r >= len(m.files)] tested by the
    moves when the cursor is in the last column. *)
Definition pastLastColumn (m : model) : bool :=
  (c m =? columns m -ᵢ 1) && (len (files m) <=? (columns m -ᵢ 1) *ᵢ rows m +ᵢ r m).

(** [m.rows - 1 - (m.columns*m.rows - len(m.files))]. *)
Definition lastPopulatedRow (m : model) : Z :=
  rows m -ᵢ 1 -ᵢ (columns m *ᵢ rows m -ᵢ len (files m)).

Definition moveUp (m : model) : model :=
  let m := set_r m (r m -ᵢ 1) in
  let m := if r m <? 0
           then let m := set_r m (rows m -ᵢ 1) in set_c m (c m -ᵢ 1)
           else m in
  if c m <? 0
  then let m := set_r m (lastPopulatedRow m) in set_c m (columns m -ᵢ 1)
  else m.

Definition moveDown (m : model) : model :=
  let m := set_r m (r m +ᵢ 1) in
  let m := if rows m <=? r m
           then let m := set_r m 0 in set_c m (c m +ᵢ 1)
           else m in
  let m := if columns m <=? c m then set_c m 0 else m in
  if pastLastColumn m
  then let m := set_r m 0 in set_c m 0
  else m.

Definition moveLeft (m : model) : model :=
  let m := set_c m (c m -ᵢ 1) in
  let m := if c m <? 0 then set_c m (columns m -ᵢ 1) else m in
  if pastLastColumn m
  then let m := set_r m (lastPopulatedRow m) in set_c m (columns m -ᵢ 1)
  else m.

Definition moveRight (m : model) : model :=
  let m := set_c m (c m +ᵢ 1) in
  let m := if columns m <=? c m then set_c m 0 else m in
  if pastLastColumn m
  then let m := set_r m (lastPopulatedRow m) in set_c m (columns m -ᵢ 1)
  else m.

Definition moveTop (m : model) : model := set_r m 0.

Definition moveBottom (m : model) : model :=
  let m := set_r m (rows m -ᵢ 1) in
  if pastLastColumn m then set_r m (lastPopulatedRow m) else m.

Definition moveLeftmost (m : model) : model := set_c m 0.

Definition moveRightmost (m : model) : model :=
  let m := set_c m (columns m -ᵢ 1) in
  if pastLastColumn m
  then let m := set_r m (lastPopulatedRow m) in set_c m (columns m -ᵢ 1)
  else m.

(** ** Scrolling, position memory, the selected file *)

Definition listHeight (m : model) : Z := height m -ᵢ 1.

Definition updateOffset (m : model) : model :=
  let height := listHeight m in
  (* Scrolling down. *)
  let m := if offset m +ᵢ height <=? r m then set_offset m (r m -ᵢ height +ᵢ 1) else m in
  (* Scrolling up. *)
  let m := if r m <? offset m then set_offset m (r m) else m in
  (* Don't scroll more than there are rows. *)
  if (rows m -ᵢ height <? offset m) && (height <? rows m)
  then set_offset m (rows m -ᵢ height)
  else m.

(** Save position to restore later. *)
Definition saveCursorPosition (m : model) : model :=
  set_positions m (<[path m := position.mk (c m) (r m) (offset m)]> (positions m)).

(** Indexing [l[i]]. *)
Definition index {A : Type} (l : list A) (i : Z) : result A :=
  if i <? 0 then Panic IndexOutOfRange
  else match l !! Z.to_nat i with
       | Some x => Ok x
       | None => Panic IndexOutOfRange
       end.

(** [fileName] returns [(name, ok)]; [None] stands for [ok = false]. *)
Definition fileName (m : model) : result (option string) :=
  let i := c m *ᵢ rows m +ᵢ r m in
  if len (files m) <=? i then Ok None
  else let! f := index (files m) i in Ok (Some (Name f)).

Section Program.
Context (E : Env).

Definition filePath (m : model) : result (option string) :=
  let! fileName := fileName m in
  match fileName with
  | None => Ok None
  | Some fileName => Ok (Some (path_Join E (path m) fileName))
  end.

Definition list_ (m : model) : result model :=
  match os_ReadDir E (path m) with
  | Some fs => Ok (set_files m fs)
  | None => Panic ExplicitPanic
  end.

Definition fileInfo_IsDir (path : string) : result bool :=
  match os_Stat_IsDir E path with
  | Some d => Ok d
  | None => Panic ExplicitPanic
  end.

Definition openEditor (m : model) : result Cmd :=
  let! filePath := filePath m in
  match filePath with
  | None => Ok nilCmd
  | Some filePath => Ok (ExecProcess filePath)
  end.

(** [previewCmd] returns the message to deliver, [None] for [nil]. *)
Definition previewCmd (m : model) : result (option Msg) :=
  let! filePath := filePath m in
  match filePath with
  | None => Ok None
  | Some filePath => Ok (Some (previewMsg filePath))
  end.

(** ** Key bindings *)

Definition tab : string := String (ascii_of_nat 9) EmptyString.
Definition newline : string := String (ascii_of_nat 10) EmptyString.


Definition keyForceQuit : list string := ["ctrl+c"].
Definition keyQuit      : list string := ["esc"].
Definition keyOpen      : list string := ["enter"].
Definition keyBack      : list string := ["backspace"].
Definition keyUp        : list string := ["up"].
Definition keyDown      : list string := ["down"].
Definition keyLeft      : list string := ["left"].
Definition keyRight     : list string := ["right"].
Definition keyTop       : list string := ["shift+up"].
Definition keyBottom    : list string := ["shift+down"].
Definition keyLeftmost  : list string := ["shift+left"].
Definition keyRightmost : list string := ["shift+right"].
Definition keyVimUp     : list string := ["k"].
Definition keyVimDown   : list string := ["j"].
Definition keyVimLeft   : list string := ["h"].
Definition keyVimRight  : list string := ["l"].
Definition keyVimTop    : list string := ["g"].
Definition keyVimBottom : list string := ["G"].
Definition keySearch    : list string := ["/"].
Definition keyPreview   : list string := [" "].

(** [key.Matches(msg, b)]: the key's text is one of the binding's keys. *)
Definition Matches (k : Key) (b : list string) : bool :=
  existsb (String.eqb (Key_String k)) b.

Definition isKeyRunes (k : Key) : bool :=
  match Type_ k with KeyRunes => true | _ => false end.

(** ** Update *)

(** Restore the position remembered for [m.path], if any. *)
Definition lookupPosition (m : model) : option position.t := positions m !! path m.

Definition restorePosition (m : model) (p : position.t) : model :=
  let m := set_c m (position.c p) in
  let m := set_r m (position.r p) in
  set_offset m (position.offset p).

(** The statements after the [switch] on the key. *)
Definition afterSwitch (m : model) : result (model * Cmd) :=
  let m := updateOffset m in
  let m := saveCursorPosition m in
  if previewMode m then Ok (m, previewCmdOf) else Ok (m, nilCmd).

(** The [tea.KeyRunes] branch of search mode. *)
Definition searchRunes (m : model) (k : Key) : result (model * Cmd) :=
  let m := set_search m (search m +:+ Runes k) in
  let names := map Name (files m) in
  let matches := fuzzy_Find E (search m) names in
  let! m :=
    match matches with
    | mt :: _ =>
        let m := set_matchedIndexes m (MatchedIndexes mt) in
        let index := Index mt in
        let! q := int_quo index (rows m) in
        let m := set_c m q in
        let! rm := int_rem index (rows m) in
        Ok (set_r m rm)
    | [] => Ok m
    end in
  let m := updateOffset m in
  let m := saveCursorPosition m in
  (* Save search id to clear only current search after delay. *)
  let searchId := searchId m in
  Ok (m, TickClearSearch searchId).

(** The [switch] on the key and what follows it. *)
Definition switchKey (m : model) (k : Key) : result (model * Cmd) :=
  if Matches k keyForceQuit then
    Ok (set_exitCode m 2, Quit)
  else if Matches k keyQuit then
    (* m.path is written to the standard output here *)
    Ok (set_exitCode m 0, Quit)
  else if Matches k keyOpen then
    let m := set_searchMode m false in
    let! filePath := filePath m in
    match filePath with
    | None => Ok (m, nilCmd)
    | Some filePath =>
        let! isDir := fileInfo_IsDir filePath in
        if isDir then
          (* Enter subdirectory. *)
          let m := set_path m filePath in
          let m := match lookupPosition m with
                   | Some p => restorePosition m p
                   | None => let m := set_c m 0 in let m := set_r m 0 in set_offset m 0
                   end in
          let! m := list_ m in
          afterSwitch m
        else
          (* Open file. *)
          let! cmd := openEditor m in Ok (m, cmd)
    end
  else if Matches k keyBack then
    let m := set_searchMode m false in
    let m := set_prevName m (filepath_Base E (path m)) in
    let m := set_path m (filepath_Join E (path m) "..") in
    let m := match lookupPosition m with
             | Some p => restorePosition m p
             | None => set_findPrevName m true
             end in
    let! m := list_ m in
    if previewMode m then Ok (m, previewCmdOf) else Ok (m, nilCmd)
  else if Matches k keyUp then afterSwitch (moveUp m)
  else if Matches k keyTop || Matches k keyVimTop then afterSwitch (moveTop m)
  else if Matches k keyBottom || Matches k keyVimBottom then afterSwitch (moveBottom m)
  else if Matches k keyLeftmost then afterSwitch (moveLeftmost m)
  else if Matches k keyRightmost then afterSwitch (moveRightmost m)
  else if Matches k keyVimUp then
    afterSwitch (if negb (searchMode m) then moveUp m else m)
  else if Matches k keyDown then afterSwitch (moveDown m)
  else if Matches k keyVimDown then
    afterSwitch (if negb (searchMode m) then moveDown m else m)
  else if Matches k keyLeft then afterSwitch (moveLeft m)
  else if Matches k keyVimLeft then
    afterSwitch (if negb (searchMode m) then moveLeft m else m)
  else if Matches k keyRight then afterSwitch (moveRight m)
  else if Matches k keyVimRight then
    afterSwitch (if negb (searchMode m) then moveRight m else m)
  else if Matches k keySearch then
    let m := set_searchMode m true in
    let m := set_searchId m (searchId m +ᵢ 1) in
    let m := set_search m "" in
    afterSwitch m
  else if Matches k keyPreview then
    let m := set_previewMode m (negb (previewMode m)) in
    (* Reset position history as c&r changes. *)
    let m := set_positions m ∅ in
    (* Keep cursor at same place. *)
    let! fileName := fileName m in
    match fileName with
    | None => Ok (m, nilCmd)
    | Some fileName =>
        let m := set_prevName m fileName in
        let m := set_findPrevName m true in
        if previewMode m then Ok (m, SequenceEnterAltScreenPreview)
        else Ok (set_previewContent m "", ExitAltScreen)
    end
  else afterSwitch m.

Definition Update (m : model) (msg : Msg) : result (model * Cmd) :=
  match msg with
  | WindowSizeMsg Width Height =>
      let m := set_width m Width in
      let m := set_height m Height in
      (* Reset position history as c&r changes. *)
      let m := set_positions m ∅ in
      (* Keep cursor at same place. *)
      let! fileName := fileName m in
      let m := match fileName with
               | Some fileName => set_findPrevName (set_prevName m fileName) true
               | None => m
               end in
      (* Also, m.c&r no longer point to the correct indexes. *)
      let m := set_c m 0 in
      let m := set_r m 0 in
      Ok (m, nilCmd)
  | KeyMsg k =>
      if searchMode m then
        if Matches k keySearch then
          Ok (set_searchMode m false, nilCmd)
        else if Matches k keyBack then
          if 0 <? slen (search m) then
            let! s := slice_to (search m) (slen (search m) -ᵢ 1) in
            Ok (set_search m s, nilCmd)
          else switchKey m k
        else if isKeyRunes k then searchRunes m k
        else switchKey m k
      else switchKey m k
  | clearSearchMsg id =>
      let m := if searchId m =? id then set_searchMode m false else m in
      Ok (m, nilCmd)
  | previewMsg filePath =>
      match os_Open_ReadAll E filePath with
      | inl err => Ok (set_previewContent m err, nilCmd)
      | inr content =>
          if Valid content
          then Ok (set_previewContent m (Replace content tab "    " (-1)), nilCmd)
          else Ok (set_previewContent m (warning_Render E "No preview available"), nilCmd)
      end
  | otherMsg => Ok (m, nilCmd)
  end.

(** ** View *)

Definition separator : string := "    ". (* Separator between columns. *)

(** [int(math.Ceil(float64(n) / float64(d)))] for [n >= 0] and [d >= 1].
    Both operands are exact in float64 below 2^53 and the IEEE division
    is correctly rounded, so the ceiling of the quotient is the integer
    ceiling of [n / d]; the model takes that integer. *)
Definition ceilDiv (n d : Z) : Z := (n + d - 1) / d.

(** The loop over [j] that fills column [i]: [n] is the index of the
    next file, [max] the running maximum of the cell widths.  The loop
    counters [i], [j] and [n] stay below [m.columns], [m.rows] and
    [len(m.files)], so their increments cannot overflow. *)
Fixpoint fillColumn (todo : nat) (i j : Z) (n : nat) (max : Z) (m : model)
  : list string * nat * Z * model :=
  match todo with
  | O => ([], n, max, m)
  | S todo' =>
      let '(name, n, m) :=
        match files m !! n with
        | Some f =>
            let name := Name f in
            let m := if findPrevName m && String.eqb (prevName m) name
                     then let m := set_c m i in set_r m j
                     else m in
            (* Dirs should have a slash at the end. *)
            let name := if IsDir f then name +:+ "/" else name in
            (name, S n, m)
        | None => ("", n, m)
        end in
      let max := if max <? slen name then slen name else max in
      let '(col, n, max, m) := fillColumn todo' i (j + 1) n max m in
      (name :: col, n, max, m)
  end.

(** Append spaces to make all names in one column of same size. *)
Definition padColumn (max : Z) (col : list string) : list string :=
  map (fun name => name +:+ Repeat " " (max -ᵢ slen name)) col.

(** The loop over [i]: the columns from [i] on. *)
Fixpoint fillNames (todo : nat) (i : Z) (n : nat) (m : model)
  : list (list string) * model :=
  match todo with
  | O => ([], m)
  | S todo' =>
      let '(col, n, max, m) := fillColumn (Z.to_nat (rows m)) i 0 n 0 m in
      let col := padColumn max col in
      let '(names, m) := fillNames todo' (i + 1) n m in
      (col :: names, m)
  end.

(** Row [j] of the grid: [names[i][j]] for every column [i]. *)
Definition rowOf (names : list (list string)) (j : nat) : list string :=
  map (fun col => nth j col "") names.

Definition rowTooWide (names : list (list string)) (width : Z) (j : nat) : bool :=
  width <? slen (Join (rowOf names j) separator).

(** The code from the label [start:] to the end of the width check, run
    with [m.columns = k + 1].  A row that is too wide while
    [m.columns > 1] decrements [m.columns] and jumps back to [start:],
    which is the recursive call on [k - 1]. *)
Fixpoint fit (k : nat) (m : model) (width : Z) : model * list (list string) :=
  let m := set_columns m (Z.of_nat (S k)) in
  let m := set_rows m (ceilDiv (len (files m)) (columns m)) in
  let '(names, m) := fillNames (S k) 0 0%nat m in
  match k with
  | S k' =>
      if existsb (rowTooWide names width) (seq 0 (Z.to_nat (rows m)))
      then fit k' m width
      else (m, names)
  | O => (m, names)
  end.

(** The grid layout of [View]: the column heuristic and the fitting loop. *)
Definition layout (m : model) (width : Z) : result (model * list (list string)) :=
  let height := listHeight m in
  let! q := int_quo (len (files m)) (Z.quot height 3) in
  let m := set_columns m q in
  let m := if columns m <=? 0 then set_columns m 1 else m in
  Ok (fit (Z.to_nat (columns m - 1)) m width).

Definition outputRow (m : model) (names : list (list string)) (j : nat) : string :=
  Join (imap (fun i col =>
                let cell := nth j col "" in
                if (Z.of_nat i =? c m) && (Z.of_nat j =? r m)
                then cursor_Render E cell else cell) names)
       separator.

(** The location bar: the path, cut on the left when it and the filter
    do not fit the width. *)
Definition locationOf (m : model) : string :=
  match os_UserHomeDir E with
  | Some userHomeDir => Replace (path m) userHomeDir "~" 1
  | None => path m
  end.

Definition filterOf (m : model) : string :=
  if searchMode m then "/" +:+ search m else "".

Definition viewWidth (m : model) : Z :=
  if previewMode m then Z.quot (width m) 2 else width m.

Definition barOf (m : model) : result string :=
  let width := viewWidth m in
  let location := locationOf m in
  let filter := filterOf m in
  let barLen := slen location +ᵢ slen filter in
  let! location :=
    if width <? barLen then slice_from location (barLen -ᵢ width) else Ok location in
  Ok (bar_Render E location +:+ search_Render E filter).

Definition View (m : model) : result (model * string) :=
  let width := viewWidth m in
  let height' := listHeight m in
  let! (m, names) := layout m width in
  (* If we need to select previous directory on "up". *)
  let m := if findPrevName m
           then let m := set_findPrevName m false in
                let m := updateOffset m in
                saveCursorPosition m
           else m in
  let output := map (outputRow m names) (seq 0 (Z.to_nat (rows m))) in
  let! output :=
    if offset m +ᵢ height' <=? len output
    then slice_list output (offset m) (offset m +ᵢ height')
    else Ok output in
  let! bar := barOf m in
  if len (files m) =? 0 then
    Ok (m, bar +:+ newline +:+ warning_Render E "No files")
  else
    let main := bar +:+ newline +:+ Join output newline in
    if previewMode m
    then Ok (m, JoinHorizontalTop E main (preview_Render E (height m) (previewContent m)))
    else Ok (m, main).

End Program.

(** ** The grid and the cursor *)

Definition linearIndex (m : model) : Z := c m * rows m + r m.

(** The cursor is on an entry. *)
Definition validCursor (m : model) : Prop :=
  0 <= c m < columns m /\ 0 <= r m < rows m /\ linearIndex m < len (files m).

(** A grid in which only the last column can be short: every column
    but the last is full, the last one holds at least one entry, and
    the number of cells fits an [int]. *)
Definition lastColumnShort (m : model) : Prop :=
  0 < columns m /\ 0 < rows m /\
  (columns m - 1) * rows m < len (files m) <= columns m * rows m /\
  columns m * rows m <= int_max.

Definition sameGrid (m m' : model) : Prop :=
  columns m' = columns m /\ rows m' = rows m /\ files m' = files m.

(** The eight directional moves. *)
Definition moves : list (model -> model) :=
  [moveUp; moveDown; moveLeft; moveRight; moveTop; moveBottom; moveLeftmost; moveRightmost].


(** [m'] differs from [m] in the cursor only. *)
Definition cursorMoved (m m' : model) : Prop := m' = set_r (set_c m (c m')) (r m').

(** The cycle property as the specification states it: from a cursor on
    an entry, [columns * rows] presses of Down lead back to the start. *)
Definition downCycleOfAllCells (m : model) : Prop :=
  validCursor m -> 0 < len (files m) ->
  let m' := Nat.iter (Z.to_nat (columns m * rows m)) moveDown m in
  c m' = c m /\ r m' = r m.

(** The text of the cell of entry [n]: its name, followed by a slash
    for a directory; empty past the last entry. *)
Definition cellText (fs : list DirEntry) (n : nat) : string :=
  match fs !! n with
  | Some f => if IsDir f then Name f +:+ "/" else Name f
  | None => ""
  end.

(** Column [i] of the column-major grid of [nrows] rows. *)
Definition columnTexts (fs : list DirEntry) (nrows i : nat) : list string :=
  map (fun j => cellText fs (i * nrows + j)%nat) (seq 0 nrows).

Definition columnWidth (col : list string) : Z :=
  fold_right (fun s w => Z.max (slen s) w) 0 col.

(** The grid the specification describes: entries assigned to cells
    column by column, every cell padded to the width of its column. *)
Definition gridOf (fs : list DirEntry) (ncols nrows : nat) : list (list string) :=
  map (fun i => padColumn (columnWidth (columnTexts fs nrows i)) (columnTexts fs nrows i))
      (seq 0 ncols).

(** What the fitting loop returns: a column count of at least 1, the
    matching row count, the column-major padded grid of that many
    columns and rows, and, unless a single column is left, no row wider
    than [width]. *)
Definition fits (width : Z) (m0 : model) (res : model * list (list string)) : Prop :=
  let (m, names) := res in
  files m = files m0 /\
  1 <= columns m /\
  rows m = ceilDiv (len (files m)) (columns m) /\
  names = gridOf (files m) (Z.to_nat (columns m)) (Z.to_nat (rows m)) /\
  length names = Z.to_nat (columns m) /\
  Forall (fun col => length col = Z.to_nat (rows m)) names /\
  (columns m = 1 \/
   forall j : nat, (j < Z.to_nat (rows m))%nat ->
                   slen (Join (rowOf names j) separator) <= width).

(** Replacing every tab by four spaces, byte by byte. *)
Fixpoint expandTabs (s : string) : string :=
  match s with
  | EmptyString => EmptyString
  | String a s' =>
      if Ascii.eqb a (ascii_of_nat 9) then "    " +:+ expandTabs s'
      else String a (expandTabs s')
  end.

(** Backspace in search mode as the specification states it: the query
    loses its last character and the cursor is relocated to the top
    match of the shortened query. *)
Definition backspaceRematches (E : Env) (m : model) (k : Key) : Prop :=
  searchMode m = true -> 0 < slen (search m) -> Matches k keyBack = true ->
  exists m' cmd,
    Update E m (KeyMsg k) = Ok (m', cmd) /\
    match fuzzy_Find E (search m') (map Name (files m)) with
    | top :: _ =>
        int_quo (Index top) (rows m) = Ok (c m') /\
        int_rem (Index top) (rows m) = Ok (r m')
    | [] => True
    end.

(** Enter without a selected file as the specification states it: the
    model is left as it was. *)
Definition enterLeavesModel (E : Env) (m : model) : Prop :=
  1 <= rows m -> 0 <= c m -> 0 <= r m -> len (files m) <= linearIndex m ->
  exists cmd,
    Update E m (KeyMsg {| Type_ := KeyEnter; Runes := ""; Alt := false |}) = Ok (m, cmd).

(** The offset [updateOffset] leaves, as a function of the row, the
    offset, the row count and the list height it reads. *)
Definition scrollOffset (row off nrows listH : Z) : Z :=
  let off := if off +ᵢ listH <=? row then row -ᵢ listH +ᵢ 1 else off in
  let off := if row <? off then row else off in
  if (nrows -ᵢ listH <? off) && (listH <? nrows) then nrows -ᵢ listH else off.

(** ** The program and its event loop *)

(** The model [main] builds before it lists the start directory. *)
Definition newModel (startPath : string) : model :=
  {| path := startPath; files := []; c := 0; r := 0; columns := 0; rows := 0;
     width := 80; height := 60; offset := 0; positions := ∅;
     search := ""; searchMode := false; searchId := 0; matchedIndexes := [];
     prevName := ""; findPrevName := false; exitCode := 0;
     previewMode := false; previewContent := "" |}.

(** bubbletea calls [Update] for every message and renders [View]
    after each of them. *)
Fixpoint eventLoop (E : Env) (m : model) (msgs : list Msg) : result model :=
  match msgs with
  | [] => Ok m
  | msg :: msgs' =>
      let! (m, _) := Update E m msg in
      let! (m, _) := View E m in
      eventLoop E m msgs'
  end.

(** [main] from the start path on: list the directory, render the
    initial view, then serve the messages. *)
Definition run (E : Env) (startPath : string) (msgs : list Msg) : result model :=
  let! m := list_ E (newModel startPath) in
  let! (m, _) := View E m in
  eventLoop E m msgs.

(** ** A small file system to run the program on *)

Module Demo.

Definition file (name : string) : DirEntry := {| Name := name; IsDir := false |}.
Definition dir (name : string) : DirEntry := {| Name := name; IsDir := true |}.

(** Positions at which [pat] occurs in [s] as a subsequence, leftmost
    first, counted from [i]. *)
Fixpoint subsequence (pat s : string) (i : Z) : option (list Z) :=
  match pat with
  | EmptyString => Some []
  | String p pat' =>
      (fix scan (s : string) (i : Z) : option (list Z) :=
         match s with
         | EmptyString => None
         | String a s' =>
             if Ascii.eqb a p
             then option_map (cons i) (subsequence pat' s' (i + 1))
             else scan s' (i + 1)
         end) s i
  end.

Fixpoint findFrom (pat : string) (names : list string) (i : Z) : list Match :=
  match names with
  | [] => []
  | name :: rest =>
      match subsequence pat name 0 with
      | Some idxs => {| Index := i; MatchedIndexes := idxs |} :: findFrom pat rest (i + 1)
      | None => findFrom pat rest (i + 1)
      end
  end.

(** A stand-in for [fuzzy.Find]: the candidates that contain the
    pattern as a subsequence, nothing for the empty pattern.  It does
    not rank; it is only run below on inputs where at most one candidate
    matches. *)
Definition find (pat : string) (names : list string) : list Match :=
  match pat with
  | EmptyString => []
  | _ => findFrom pat names 0
  end.

Definition invalidBytes : string :=
  String (ascii_of_nat 255) (String (ascii_of_nat 254) EmptyString).

Definition readDir (p : string) : option (list DirEntry) :=
  if String.eqb p "/" then Some [dir "opt"; dir "srv"; dir "var"]
  else if String.eqb p "/opt" then Some [file "a"; file "b"; file "c"; file "d"; file "e"]
  else if String.eqb p "/srv" then Some [dir "data"; file "lib.c"; file "main.c"; file "util.c"]
  else if String.eqb p "/srv/data"
       then Some [file "a.go"; file "b.go"; file "c.go"; file "d.go"; file "e.go"; file "f.go"]
  else if String.eqb p "/var"
       then Some [file "a"; file "b"; file "c"; file "d"; file "e"; file "f"; file "g"]
  else if String.eqb p "/mnt" then Some []
  else None.

Definition isDirPath (p : string) : bool :=
  existsb (String.eqb p) ["/"; "/opt"; "/srv"; "/srv/data"; "/var"; "/mnt"].

Definition parent (p : string) : string :=
  if String.eqb p "/srv/data" then "/srv" else "/".

Definition base (p : string) : string :=
  if String.eqb p "/srv/data" then "data"
  else if String.eqb p "/srv" then "srv"
  else if String.eqb p "/opt" then "opt"
  else if String.eqb p "/var" then "var"
  else if String.eqb p "/mnt" then "mnt"
  else "/".

Definition openReadAll (p : string) : string + string :=
  if String.eqb p "/srv/lib.c" then inr ("int" +:+ tab +:+ "x;")
  else if String.eqb p "/srv/main.c" then inr invalidBytes
  else if isDirPath p then inr ""
  else inl ("open " +:+ p +:+ ": no such file or directory").

(** Styles that leave the text as it is. *)
Definition env : Env :=
  {| os_ReadDir := readDir;
     os_Stat_IsDir := fun p => Some (isDirPath p);
     os_Open_ReadAll := openReadAll;
     os_UserHomeDir := Some "/home/alice";
     filepath_Base := base;
     filepath_Join := fun p _ => parent p;
     path_Join := fun p name => if String.eqb p "/" then p +:+ name else p +:+ "/" +:+ name;
     fuzzy_Find := find;
     warning_Render := fun s => s;
     cursor_Render := fun s => s;
     bar_Render := fun s => s;
     search_Render := fun s => s;
     preview_Render := fun _ s => s;
     JoinHorizontalTop := fun a b => a +:+ b |}.

Definition key (t : KeyType) : Msg := KeyMsg {| Type_ := t; Runes := ""; Alt := false |}.
Definition runes (s : string) : Msg := KeyMsg {| Type_ := KeyRunes; Runes := s; Alt := false |}.

End Demo.

(** ** States the program reaches on that file system *)

Module States.
Import Demo.

(** [/var], seven entries, in a terminal of 11 columns and 4 rows: a
    grid of three columns and three rows, the last column holding one
    entry. *)
Definition var : model :=
  {| path := "/var";
     files := [file "a"; file "b"; file "c"; file "d"; file "e"; file "f"; file "g"];
     c := 0; r := 0; columns := 3; rows := 3; width := 11; height := 4; offset := 0;
     positions := {[ "/var" := position.mk 0 0 0 ]};
     search := ""; searchMode := false; searchId := 0; matchedIndexes := [];
     prevName := "a"; findPrevName := false; exitCode := 0;
     previewMode := false; previewContent := "" |}.

(** [/opt], five entries, in a terminal of 20 columns and 5 rows: four
    columns of two rows; the third column holds one entry and the
    fourth none. *)
Definition opt : model :=
  {| path := "/opt";
     files := [file "a"; file "b"; file "c"; file "d"; file "e"];
     c := 0; r := 0; columns := 4; rows := 2; width := 20; height := 5; offset := 0;
     positions := {[ "/opt" := position.mk 0 0 0 ]};
     search := ""; searchMode := false; searchId := 0; matchedIndexes := [];
     prevName := "a"; findPrevName := false; exitCode := 0;
     previewMode := false; previewContent := "" |}.

(** [/srv] in a terminal of 20 columns and 13 rows, one column of four
    rows, after [/] has started a search. *)
Definition srvSearch : model :=
  {| path := "/srv";
     files := [dir "data"; file "lib.c"; file "main.c"; file "util.c"];
     c := 0; r := 0; columns := 1; rows := 4; width := 20; height := 13; offset := 0;
     positions := {[ "/srv" := position.mk 0 0 0 ]};
     search := ""; searchMode := true; searchId := 1; matchedIndexes := [];
     prevName := "data"; findPrevName := false; exitCode := 0;
     previewMode := false; previewContent := "" |}.

(** The same search after [u] (cursor on [util.c]), [z] (no match) and
    the Up arrow (cursor on [main.c]). *)
Definition srvTyped : model :=
  {| path := "/srv";
     files := [dir "data"; file "lib.c"; file "main.c"; file "util.c"];
     c := 0; r := 2; columns := 1; rows := 4; width := 20; height := 13; offset := 0;
     positions := {[ "/srv" := position.mk 0 2 0 ]};
     search := "uz"; searchMode := true; searchId := 1; matchedIndexes := [0];
     prevName := "data"; findPrevName := false; exitCode := 0;
     previewMode := false; previewContent := "" |}.

(** [/opt] after Down, Right, Right and [/]: the cursor is in column 2,
    row 1, a cell without an entry, and search mode is on. *)
Definition optBlank : model :=
  {| path := "/opt";
     files := [file "a"; file "b"; file "c"; file "d"; file "e"];
     c := 2; r := 1; columns := 4; rows := 2; width := 20; height := 5; offset := 0;
     positions := {[ "/opt" := position.mk 2 1 0 ]};
     search := ""; searchMode := true; searchId := 1; matchedIndexes := [];
     prevName := "a"; findPrevName := false; exitCode := 0;
     previewMode := false; previewContent := "" |}.

Definition dataFiles : list DirEntry :=
  [file "a.go"; file "b.go"; file "c.go"; file "d.go"; file "e.go"; file "f.go"].
Definition srvFiles : list DirEntry :=
  [dir "data"; file "lib.c"; file "main.c"; file "util.c"].

(** [/srv/data] in a terminal of 10 columns and 4 rows (a list of three
    rows), entered from [/srv], with the cursor moved to the bottom. *)
Definition dataBottom : model :=
  {| path := "/srv/data"; files := dataFiles;
     c := 0; r := 5; columns := 1; rows := 6; width := 10; height := 4; offset := 3;
     positions := {[ "/srv/data" := position.mk 0 5 3; "/srv" := position.mk 0 0 0 ]};
     search := ""; searchMode := false; searchId := 0; matchedIndexes := [];
     prevName := "data"; findPrevName := false; exitCode := 0;
     previewMode := false; previewContent := "" |}.

(** Back in [/srv] after Backspace. *)
Definition srvBack : model :=
  {| path := "/srv"; files := srvFiles;
     c := 0; r := 0; columns := 1; rows := 4; width := 10; height := 4; offset := 0;
     positions := {[ "/srv/data" := position.mk 0 5 3; "/srv" := position.mk 0 0 0 ]};
     search := ""; searchMode := false; searchId := 0; matchedIndexes := [];
     prevName := "data"; findPrevName := false; exitCode := 0;
     previewMode := false; previewContent := "" |}.

(** [/srv/data] in the same terminal with nine characters typed into
    the search. *)
Definition dataTyped : model :=
  {| path := "/srv/data"; files := dataFiles;
     c := 0; r := 0; columns := 1; rows := 6; width := 10; height := 4; offset := 0;
     positions := {[ "/srv/data" := position.mk 0 0 0; "/srv" := position.mk 0 0 0 ]};
     search := "aaaaaaaaa"; searchMode := true; searchId := 1; matchedIndexes := [0];
     prevName := "data"; findPrevName := false; exitCode := 0;
     previewMode := false; previewContent := "" |}.

End States.

(** ** Definitions for the further properties *)

(** The cell [(column, row)] when it holds an entry, the cell of the
    last entry otherwise. *)
Definition cellOrLast (m : model) (column row : Z) : Z * Z :=
  if column * rows m + row <? len (files m) then (column, row)
  else (columns m - 1, len (files m) - 1 - (columns m - 1) * rows m).

Definition cursorOf (m : model) : Z * Z := (c m, r m).
(** * Properties *)

(** ** Arithmetic of Go's [int] *)

Lemma wrap_id (x : Z) : is_int x -> wrap x = x.
Proof.
  unfold is_int, int_min, int_max, wrap. intros H.
  rewrite Z.mod_small; lia.
Qed.

Lemma wrap_is_int (x : Z) : is_int (wrap x).
Proof.
  unfold is_int, int_min, int_max, wrap.
  pose proof (Z.mod_pos_bound (x + 2 ^ 63) (2 ^ 64) ltac:(lia)). lia.
Qed.

Lemma wrap_succ_neq (x : Z) : is_int x -> wrap (x + 1) <> x.
Proof.
  unfold is_int, int_min, int_max, wrap. intros H E.
  destruct (Z.eq_dec x (2 ^ 63 - 1)) as [->|Hne].
  - vm_compute in E. discriminate.
  - rewrite Z.mod_small in E; lia.
Qed.

(** Rewrites the innermost [wrap]s whose argument is provably in range. *)
Ltac unwrap_all tac :=
  unfold int_add, int_sub, int_mul in *;
  repeat match goal with
         | |- context [wrap ?x] =>
             lazymatch x with
             | context [wrap _] => fail
             | _ => rewrite (wrap_id x) by (unfold is_int, int_min, int_max in *; tac)
             end
         | H : context [wrap ?x] |- _ =>
             lazymatch x with
             | context [wrap _] => fail
             | _ => rewrite (wrap_id x) in H by (unfold is_int, int_min, int_max in *; tac)
             end
         end.

Ltac bool_to_prop :=
  rewrite ?andb_true_iff, ?andb_false_iff, ?orb_true_iff, ?orb_false_iff,
    ?Z.leb_le, ?Z.leb_gt, ?Z.ltb_lt, ?Z.ltb_ge, ?Z.eqb_eq, ?Z.eqb_neq in *.

Ltac msimpl :=
  cbn [path files c r columns rows width height offset positions search
       searchMode searchId matchedIndexes prevName findPrevName exitCode
       previewMode previewContent
       set_path set_files set_c set_r set_columns set_rows set_width set_height
       set_offset set_positions set_search set_searchMode set_searchId
       set_matchedIndexes set_prevName set_findPrevName set_exitCode
       set_previewMode set_previewContent
       saveCursorPosition restorePosition bind andb orb negb fst snd] in *.

(** [updateOffset] writes [m.offset] and nothing else. *)
Lemma updateOffset_frame (m : model) :
  updateOffset m = set_offset m (offset (updateOffset m)).
Proof.
  destruct m. unfold updateOffset, listHeight. msimpl.
  repeat match goal with
         | |- context [if ?b then _ else _] =>
             lazymatch b with
             | context [if _ then _ else _] => fail
             | _ => destruct b; msimpl
             end
         end; reflexivity.
Qed.

Lemma updateOffset_offset (m : model) :
  offset (updateOffset m) = scrollOffset (r m) (offset m) (rows m) (listHeight m).
Proof.
  destruct m. unfold updateOffset, scrollOffset, listHeight. msimpl.
  repeat match goal with
         | |- context [if ?b then _ else _] =>
             lazymatch b with
             | context [if _ then _ else _] => fail
             | _ => destruct b; msimpl
             end
         end; reflexivity.
Qed.

Ltac grid_facts :=
  match goal with
  | G : lastColumnShort ?m, V : validCursor ?m |- _ =>
      unfold lastColumnShort, validCursor, linearIndex, sameGrid in *;
      destruct G as (Gc & Gr & [Glo Ghi] & Gmax);
      destruct V as ([Vc0 Vc1] & [Vr0 Vr1] & Vi)
  end.

Ltac model_simpl := cbn [set_c set_r c r columns rows files andb] in *.

Ltac open_move :=
  unfold moveUp, moveDown, moveLeft, moveRight, moveTop, moveBottom,
    moveLeftmost, moveRightmost, pastLastColumn, lastPopulatedRow;
  model_simpl.

(** Case analysis on the innermost test of the goal. *)
Ltac split_if :=
  match goal with
  | |- context [if ?b then _ else _] =>
      lazymatch b with
      | context [if _ then _ else _] => fail
      | _ => let E := fresh "E" in destruct b eqn:E; model_simpl
      end
  end.

Ltac move_cases := open_move; repeat split_if; bool_to_prop; unwrap_all nia.

Section Navigator.
Variable m : model.
Hypothesis G : lastColumnShort m.
Hypothesis V : validCursor m.

Lemma moveUp_valid : validCursor (moveUp m) /\ sameGrid m (moveUp m).
Proof. grid_facts. move_cases; (split; [nia | done]). Qed.

Lemma moveDown_valid : validCursor (moveDown m) /\ sameGrid m (moveDown m).
Proof. grid_facts. move_cases; (split; [nia | done]). Qed.

Lemma moveLeft_valid : validCursor (moveLeft m) /\ sameGrid m (moveLeft m).
Proof. grid_facts. move_cases; (split; [nia | done]). Qed.

Lemma moveRight_valid : validCursor (moveRight m) /\ sameGrid m (moveRight m).
Proof. grid_facts. move_cases; (split; [nia | done]). Qed.

Lemma moveTop_valid : validCursor (moveTop m) /\ sameGrid m (moveTop m).
Proof. grid_facts. move_cases; (split; [nia | done]). Qed.

Lemma moveBottom_valid : validCursor (moveBottom m) /\ sameGrid m (moveBottom m).
Proof. grid_facts. move_cases; (split; [nia | done]). Qed.

Lemma moveLeftmost_valid : validCursor (moveLeftmost m) /\ sameGrid m (moveLeftmost m).
Proof. grid_facts. move_cases; (split; [nia | done]). Qed.

Lemma moveRightmost_valid : validCursor (moveRightmost m) /\ sameGrid m (moveRightmost m).
Proof. grid_facts. move_cases; (split; [nia | done]). Qed.

(** In a grid whose last column is the only short one, every move takes
    a cursor on an entry to a cursor on an entry. *)
Lemma moves_valid (mv : model -> model) :
  In mv moves -> validCursor (mv m) /\ sameGrid m (mv m).
Proof.
  unfold moves. cbn [In].
  intros [<-|[<-|[<-|[<-|[<-|[<-|[<-|[<-|[]]]]]]]]];
    auto using moveUp_valid, moveDown_valid, moveLeft_valid, moveRight_valid,
      moveTop_valid, moveBottom_valid, moveLeftmost_valid, moveRightmost_valid.
Qed.

(** Down goes to the next entry in column-major order and wraps from
    the last entry to the first. *)
Lemma moveDown_index :
  linearIndex (moveDown m) = (linearIndex m + 1) mod len (files m).
Proof.
  grid_facts. move_cases.
  all: try (exfalso; nia).
  all: first [ rewrite Z.mod_small by nia; nia
             | replace (c m * rows m + r m + 1) with (len (files m)) by nia;
               rewrite Z.mod_same by nia; nia ].
Qed.

End Navigator.

(** ** States reached by the program *)

Lemma run_var : run Demo.env "/var" [WindowSizeMsg 11 4] = Ok States.var.
Proof. vm_compute. reflexivity. Qed.

Lemma run_opt : run Demo.env "/opt" [WindowSizeMsg 20 5] = Ok States.opt.
Proof. vm_compute. reflexivity. Qed.

Lemma run_srvSearch :
  run Demo.env "/srv" [WindowSizeMsg 20 13; Demo.runes "/"] = Ok States.srvSearch.
Proof. vm_compute. reflexivity. Qed.

Lemma run_srvTyped :
  eventLoop Demo.env States.srvSearch [Demo.runes "u"; Demo.runes "z"; Demo.key KeyUp]
  = Ok States.srvTyped.
Proof. vm_compute. reflexivity. Qed.

Lemma run_optBlank :
  eventLoop Demo.env States.opt
    [Demo.key KeyDown; Demo.key KeyRight; Demo.key KeyRight; Demo.runes "/"]
  = Ok States.optBlank.
Proof. vm_compute. reflexivity. Qed.

Lemma run_dataBottom :
  run Demo.env "/srv" [WindowSizeMsg 10 4; Demo.key KeyEnter; Demo.key KeyShiftDown]
  = Ok States.dataBottom.
Proof. vm_compute. reflexivity. Qed.

Lemma run_srvBack :
  eventLoop Demo.env States.dataBottom [Demo.key KeyBackspace] = Ok States.srvBack.
Proof. vm_compute. reflexivity. Qed.

Lemma run_dataTyped :
  run Demo.env "/srv"
    ([WindowSizeMsg 10 4; Demo.key KeyEnter; Demo.runes "/"]
       ++ repeat (Demo.runes "a") 9)
  = Ok States.dataTyped.
Proof. vm_compute. reflexivity. Qed.

(** ** Navigator *)

(** C1: the specification wants every move from a cursor on an entry to
    end on an entry.  In [/opt] (five entries, laid out by [View] in
    four columns of two rows) the cursor is brought by Down and Right
    to column 1, row 1, the fourth entry; [moveRight] then puts it in
    column 2, row 1, whose linear index 5 is not below the number of
    entries, and [fileName] finds nothing there. *)
Theorem moveRight_leaves_entries :
  exists m : model,
    eventLoop Demo.env States.opt [Demo.key KeyDown; Demo.key KeyRight] = Ok m /\
    validCursor m /\ (c m, r m) = (1, 1) /\ len (files m) = 5 /\
    (columns m, rows m) = (4, 2) /\
    (c (moveRight m), r (moveRight m)) = (2, 1) /\
    linearIndex (moveRight m) = 5 /\
    fileName (moveRight m) = Ok None.
Proof.
  eexists. split; [vm_compute; reflexivity|].
  repeat split; cbn; lia.
Qed.

Lemma cursorMoved_refl (m : model) : cursorMoved m m.
Proof. unfold cursorMoved. destruct m; reflexivity. Qed.

Lemma cursorMoved_trans (m1 m2 m3 : model) :
  cursorMoved m1 m2 -> cursorMoved m2 m3 -> cursorMoved m1 m3.
Proof.
  unfold cursorMoved. intros H12 H23. rewrite H23 at 1. rewrite H12 at 1.
  destruct m1; reflexivity.
Qed.

Lemma moveDown_cursorMoved (m : model) : cursorMoved m (moveDown m).
Proof.
  unfold cursorMoved. destruct m. open_move. repeat split_if; reflexivity.
Qed.

Lemma cursorMoved_same (m m' : model) :
  cursorMoved m m' -> c m' = c m -> r m' = r m -> m' = m.
Proof.
  unfold cursorMoved. intros H Hc Hr. rewrite H, Hc, Hr. destruct m; reflexivity.
Qed.

Lemma sameGrid_lastColumnShort (m m' : model) :
  sameGrid m m' -> lastColumnShort m -> lastColumnShort m'.
Proof.
  unfold sameGrid, lastColumnShort. intros (-> & -> & ->). auto.
Qed.

(** [k] presses of Down advance the linear index by [k] modulo the
    number of entries and touch nothing but the cursor. *)
Lemma moveDown_iter (m : model) (k : nat) :
  lastColumnShort m -> validCursor m ->
  let m' := Nat.iter k moveDown m in
  validCursor m' /\ sameGrid m m' /\ cursorMoved m m' /\
  linearIndex m' = (linearIndex m + Z.of_nat k) mod len (files m).
Proof.
  intros G V. cbv zeta. induction k as [|k IH].
  - change (Nat.iter 0 moveDown m) with m.
    split; [assumption|]. split; [done|]. split; [apply cursorMoved_refl|].
    change (Z.of_nat 0) with 0.
    rewrite Z.add_0_r, Z.mod_small; [reflexivity|].
    grid_facts. nia.
  - change (Nat.iter (S k) moveDown m) with (moveDown (Nat.iter k moveDown m)).
    destruct IH as (V' & S' & F' & I').
    pose proof (sameGrid_lastColumnShort _ _ S' G) as G'.
    destruct (moveDown_valid _ G' V') as [V'' S''].
    pose proof (moveDown_index _ G' V') as I''.
    destruct S' as (Sc & Sr & Sf). destruct S'' as (Sc' & Sr' & Sf').
    split; [assumption|]. split; [unfold sameGrid; repeat split; congruence|].
    split; [eapply cursorMoved_trans; [exact F'|apply moveDown_cursorMoved]|].
    rewrite I'', I', Sf.
    rewrite Zplus_mod_idemp_l. f_equal. lia.
Qed.

Lemma mod_add_self (a n : Z) : (a + n) mod n = a mod n.
Proof. replace (a + n) with (a + 1 * n) by lia. apply Z_mod_plus_full. Qed.

(** A cursor inside the grid is determined by its linear index. *)
Lemma cursor_of_index (n c1 r1 c2 r2 : Z) :
  0 <= r1 < n -> 0 <= r2 < n ->
  c1 * n + r1 = c2 * n + r2 -> c1 = c2 /\ r1 = r2.
Proof.
  intros H1 H2 H.
  assert (c1 = c2) as -> by (destruct (Z.lt_trichotomy c1 c2) as [L|[L|L]]; nia).
  split; [reflexivity | lia].
Qed.

(** C5 (amended): in a grid whose last column is the only short one,
    starting from a cursor on an entry, as many presses of Down as there
    are entries bring the model back to where it started. *)
Theorem moveDown_cycle (m : model) :
  lastColumnShort m -> validCursor m ->
  Nat.iter (length (files m)) moveDown m = m.
Proof.
  intros G V.
  destruct (moveDown_iter m (length (files m)) G V) as (V' & S' & F' & I').
  fold (len (files m)) in I'.
  rewrite mod_add_self in I'.
  destruct S' as (Sc & Sr & Sf).
  assert (Hi : linearIndex (Nat.iter (length (files m)) moveDown m) = linearIndex m).
  { rewrite I'. apply Z.mod_small. grid_facts. nia. }
  unfold linearIndex in Hi. rewrite Sr in Hi.
  destruct V' as (_ & Vr' & _). rewrite Sr in Vr'.
  destruct V as (_ & Vr & _).
  destruct (cursor_of_index _ _ _ _ _ Vr' Vr Hi) as [Hc Hr].
  apply cursorMoved_same; assumption.
Qed.

(** C5 (amended) at a concrete state: seven presses of Down in [/var]. *)
Lemma moveDown_cycle_witness :
  lastColumnShort States.var /\ validCursor States.var /\
  Nat.iter 7 moveDown States.var = States.var.
Proof.
  assert (G : lastColumnShort States.var)
    by (unfold lastColumnShort, int_max, len; simpl; lia).
  assert (V : validCursor States.var)
    by (unfold validCursor, linearIndex, len; simpl; lia).
  split; [exact G | split; [exact V | exact (moveDown_cycle States.var G V)]].
Defined.

(** C5 as stated fails in [/var]: seven entries in a grid of three by
    three; nine presses of Down from the first entry end on the third. *)
Lemma moveDown_cycle_counterexample : ~ downCycleOfAllCells States.var.
Proof.
  unfold downCycleOfAllCells. intros H.
  assert (V : validCursor States.var)
    by (unfold validCursor, linearIndex, len; simpl; lia).
  assert (N : 0 < len (files States.var)) by (unfold len; simpl; lia).
  specialize (H V N). vm_compute in H. destruct H as [_ H]. discriminate H.
Qed.

(** ** Grid layout *)

Lemma fillColumn_spec (todo : nat) :
  forall (i j : Z) (n : nat) (max : Z) (m : model),
    length (fillColumn todo i j n max m).1.1.1 = todo /\
    sameGrid m (fillColumn todo i j n max m).2.
Proof.
  induction todo as [|todo IH]; intros i j n max m; cbn [fillColumn].
  - split; [reflexivity | done].
  - destruct (files m !! n) as [f|];
      [destruct (findPrevName m && String.eqb (prevName m) (Name f))|].
    all: match goal with
         | |- context [fillColumn ?t ?i' ?j' ?n' ?mx ?m'] =>
             specialize (IH i' j' n' mx m');
             destruct (fillColumn t i' j' n' mx m') as [[[col n2] max2] m2]
         end.
    all: cbn [fst snd length] in *; destruct IH as [L S]; split; [congruence|].
    all: unfold sameGrid in *; cbn [set_c set_r columns rows files] in *; exact S.
Qed.

Lemma fillNames_spec (todo : nat) :
  forall (i : Z) (n : nat) (m : model),
    length (fillNames todo i n m).1 = todo /\
    sameGrid m (fillNames todo i n m).2 /\
    Forall (fun col => length col = Z.to_nat (rows m)) (fillNames todo i n m).1.
Proof.
  induction todo as [|todo IH]; intros i n m; cbn [fillNames].
  - split; [reflexivity|]. split; [done | constructor].
  - pose proof (fillColumn_spec (Z.to_nat (rows m)) i 0 n 0 m) as [L S].
    destruct (fillColumn (Z.to_nat (rows m)) i 0 n 0 m) as [[[col n1] max1] m1].
    cbn [fst snd] in L, S.
    specialize (IH (i + 1) n1 m1).
    destruct (fillNames todo (i + 1) n1 m1) as [names m2].
    cbn [fst snd length] in *.
    destruct IH as (L' & S' & F'). destruct S as (Sc & Sr & Sf).
    destruct S' as (Sc' & Sr' & Sf').
    split; [congruence|]. split; [unfold sameGrid; repeat split; congruence|].
    constructor.
    + unfold padColumn. rewrite length_map. exact L.
    + rewrite <- Sr. exact F'.
Qed.

Lemma cellText_past (fs : list DirEntry) (n k : nat) :
  fs !! n = None -> (n <= k)%nat -> cellText fs k = "".
Proof.
  intros Hn Hk. unfold cellText.
  rewrite (proj2 (lookup_ge_None fs k)); [reflexivity|].
  apply lookup_ge_None in Hn. lia.
Qed.

Lemma slen_nonneg (s : string) : 0 <= slen s.
Proof. unfold slen. lia. Qed.

Lemma columnWidth_nonneg (col : list string) : 0 <= columnWidth col.
Proof.
  induction col as [|s col IH]; [cbn; lia|].
  change (columnWidth (s :: col)) with (Z.max (slen s) (columnWidth col)). lia.
Qed.

(** The column loop reads the entries from [n] on, stops counting at
    the last one, and accumulates the maximum width. *)
Lemma fillColumn_texts (todo : nat) :
  forall (i j : Z) (n : nat) (max : Z) (m : model),
    0 <= max ->
    let res := fillColumn todo i j n max m in
    res.1.1.1 = map (fun t => cellText (files m) (n + t)%nat) (seq 0 todo) /\
    res.1.1.2 = Nat.min (n + todo) (Nat.max n (length (files m))) /\
    res.1.2 = Z.max max (columnWidth res.1.1.1).
Proof.
  induction todo as [|todo IH]; intros i j n max m Hmax; cbv zeta; cbn [fillColumn].
  - cbn. repeat split; lia.
  - cbn [seq map]. rewrite <- seq_shift, map_map.
    destruct (files m !! n) as [f|] eqn:Hn.
    + assert (Hlt : (n < length (files m))%nat) by (eapply lookup_lt_Some; exact Hn).
      assert (Hname : (if IsDir f then Name f +:+ "/" else Name f)
                      = cellText (files m) (n + 0))
        by (unfold cellText; rewrite Nat.add_0_r, Hn; reflexivity).
      rewrite Hname.
      match goal with
      | |- context [fillColumn todo i (j + 1) (S n) ?mx ?m'] =>
          pose proof (IH i (j + 1) (S n) mx m'
                        ltac:(pose proof (slen_nonneg (cellText (files m) (n + 0)));
                              destruct (_ <? _); lia)) as (Hc & Hn' & Hm);
          pose proof (fillColumn_spec todo i (j + 1) (S n) mx m') as [_ (_ & _ & Hf)];
          assert (Hfm : files m' = files m)
            by (destruct (findPrevName m && _); reflexivity);
          destruct (fillColumn todo i (j + 1) (S n) mx m') as [[[col n2] max2] m2]
      end.
      cbn [fst snd] in *. rewrite Hfm in Hc.
      split; [|split].
      * f_equal. rewrite Hc. apply map_ext. intros t. f_equal. lia.
      * rewrite Hn', Hfm. lia.
      * rewrite Hm.
        match goal with
        | |- context [columnWidth (?x :: col)] =>
            change (columnWidth (x :: col)) with (Z.max (slen x) (columnWidth col))
        end.
        destruct (Z.ltb_spec max (slen (cellText (files m) (n + 0)))); lia.
    + assert (Hname : "" = cellText (files m) (n + 0))
        by (unfold cellText; rewrite Nat.add_0_r, Hn; reflexivity).
      assert (Hge : (length (files m) <= n)%nat) by (apply lookup_ge_None; exact Hn).
      match goal with
      | |- context [fillColumn todo i (j + 1) n ?mx ?m'] =>
          pose proof (IH i (j + 1) n mx m'
                        ltac:(change (slen "") with 0; destruct (_ <? _); lia))
            as (Hc & Hn' & Hm);
          destruct (fillColumn todo i (j + 1) n mx m') as [[[col n2] max2] m2]
      end.
      cbn [fst snd] in *.
      split; [|split].
      * rewrite <- Hname. f_equal. rewrite Hc. apply map_ext. intros t.
        rewrite !(cellText_past _ n); [reflexivity | exact Hn | lia | exact Hn | lia].
      * rewrite Hn'. lia.
      * rewrite Hm.
        match goal with
        | |- context [columnWidth (?x :: col)] =>
            change (columnWidth (x :: col)) with (Z.max (slen x) (columnWidth col))
        end.
        pose proof (columnWidth_nonneg col).
        change (slen "") with 0.
        destruct (Z.ltb_spec max 0); lia.
Qed.

(** The cells read from [min (i * nrows) N] on are the cells of column
    [i]. *)
Lemma columnTexts_from (fs : list DirEntry) (nrows i : nat) :
  map (fun t => cellText fs (Nat.min (i * nrows) (length fs) + t)%nat) (seq 0 nrows)
  = columnTexts fs nrows i.
Proof.
  unfold columnTexts. apply map_ext. intros t.
  destruct (Nat.le_gt_cases (i * nrows) (length fs)) as [Hle|Hgt].
  - rewrite Nat.min_l by exact Hle. reflexivity.
  - rewrite Nat.min_r by lia.
    unfold cellText.
    rewrite !(proj2 (lookup_ge_None fs _)); [reflexivity | lia | lia].
Qed.

(** The loop over the columns builds the column-major padded grid. *)
Lemma fillNames_grid (todo : nat) :
  forall (i : Z) (i0 n : nat) (m : model),
    n = Nat.min (i0 * Z.to_nat (rows m)) (length (files m)) ->
    (fillNames todo i n m).1
    = map (fun i => padColumn (columnWidth (columnTexts (files m) (Z.to_nat (rows m)) i))
                              (columnTexts (files m) (Z.to_nat (rows m)) i))
          (seq i0 todo).
Proof.
  induction todo as [|todo IH]; intros i i0 n m Hn; cbn [fillNames]; [reflexivity|].
  pose proof (fillColumn_texts (Z.to_nat (rows m)) i 0 n 0 m ltac:(lia)) as (Hc & Hn' & Hm).
  pose proof (fillColumn_spec (Z.to_nat (rows m)) i 0 n 0 m) as [_ (_ & Sr & Sf)].
  destruct (fillColumn (Z.to_nat (rows m)) i 0 n 0 m) as [[[col n1] max1] m1].
  cbn [fst snd] in *.
  rewrite Hn, columnTexts_from in Hc.
  specialize (IH (i + 1) (S i0) n1 m1).
  rewrite Sr, Sf in IH.
  destruct (fillNames todo (i + 1) n1 m1) as [names m2]. cbn [fst snd] in *.
  cbn [seq map]. f_equal.
  - rewrite Hm, Hc. f_equal. pose proof (columnWidth_nonneg (columnTexts (files m) (Z.to_nat (rows m)) i0)). lia.
  - apply IH. rewrite Hn'. lia.
Qed.

(** One pass from [start:] with [k + 1] columns. *)
Lemma pass_spec (k : nat) (m : model) :
  let m0 := set_columns m (Z.of_nat (S k)) in
  let m1 := set_rows m0 (ceilDiv (len (files m0)) (columns m0)) in
  let res := fillNames (S k) 0 0%nat m1 in
  files res.2 = files m /\ columns res.2 = Z.of_nat (S k) /\
  rows res.2 = ceilDiv (len (files m)) (Z.of_nat (S k)) /\
  res.1 = gridOf (files m) (S k) (Z.to_nat (rows res.2)) /\
  length res.1 = S k /\
  Forall (fun col => length col = Z.to_nat (rows res.2)) res.1.
Proof.
  intros m0 m1 res.
  pose proof (fillNames_spec (S k) 0 0%nat m1) as (L & (Sc & Sr & Sf) & F).
  pose proof (fillNames_grid (S k) 0 0%nat 0%nat m1 ltac:(cbn; lia)) as Hg.
  fold res in L, Sc, Sr, Sf, F, Hg.
  split; [rewrite Sf; reflexivity|]. split; [rewrite Sc; reflexivity|].
  split; [rewrite Sr; reflexivity|].
  split; [rewrite Sr; exact Hg|]. split; [exact L|].
  rewrite Sr. exact F.
Qed.

Lemma fit_fits (k : nat) :
  forall (m : model) (width : Z),
    fits width m (fit k m width) /\ columns (fit k m width).1 <= Z.of_nat (S k).
Proof.
  induction k as [|k IH]; intros m width; cbn [fit].
  - pose proof (pass_spec 0 m) as P. cbv zeta in P.
    destruct (fillNames 1 0 0%nat _) as [names m2]; cbn [fst snd] in *.
    destruct P as (Pf & Pc & Pr & Pg & Pl & PF).
    split; [|lia]. unfold fits.
    split; [exact Pf|]. split; [lia|].
    split; [rewrite Pr, Pf, Pc; reflexivity|].
    split; [rewrite Pf, Pc; exact Pg|].
    split; [rewrite Pc; exact Pl|].
    split; [exact PF | left; exact Pc].
  - pose proof (pass_spec (S k) m) as P. cbv zeta in P.
    destruct (fillNames (S (S k)) 0 0%nat _) as [names m2]; cbn [fst snd] in *.
    destruct P as (Pf & Pc & Pr & Pg & Pl & PF).
    destruct (existsb (rowTooWide names width) (seq 0 (Z.to_nat (rows m2)))) eqn:Ew.
    + specialize (IH m2 width). destruct IH as [IH Hle].
      split; [|lia].
      destruct (fit k m2 width) as [m3 names3]. unfold fits in *.
      destruct IH as (Hf & rest). split; [|exact rest].
      rewrite Hf, Pf. reflexivity.
    + cbn [fst]. split; [|lia].
      unfold fits.
      split; [exact Pf|]. split; [lia|].
      split; [rewrite Pr, Pf, Pc; reflexivity|].
      split; [rewrite Pf, Pc, Nat2Z.id; exact Pg|].
      split; [rewrite Pc, Nat2Z.id; exact Pl|].
      split; [exact PF|].
      right. intros j Hj.
      assert (Hin : In j (seq 0 (Z.to_nat (rows m2)))) by (apply in_seq; lia).
      destruct (Z.ltb_spec width (slen (Join (rowOf names j) separator))) as [Hw|Hw];
        [|exact Hw].
      exfalso. apply not_true_iff_false in Ew. apply Ew.
      apply existsb_exists. exists j. split; [exact Hin|].
      unfold rowTooWide. apply Z.ltb_lt. exact Hw.
Qed.

(** [ceilDiv n d] is the least number of rows of [d] cells holding [n]
    entries. *)
Lemma ceilDiv_spec (n d : Z) :
  0 <= n -> 0 < d -> (ceilDiv n d - 1) * d < n <= ceilDiv n d * d.
Proof.
  intros Hn Hd. unfold ceilDiv.
  pose proof (Z.div_mod (n + d - 1) d ltac:(lia)) as E.
  pose proof (Z.mod_pos_bound (n + d - 1) d Hd) as B.
  nia.
Qed.

(** The layout of [View] whenever the heuristic [len / (height / 3)]
    can be computed. *)
Lemma layout_fit (m : model) (width : Z) :
  Z.quot (listHeight m) 3 <> 0 ->
  exists res, layout m width = Ok res /\ fits width m res.
Proof.
  intros H. unfold layout, int_quo.
  apply Z.eqb_neq in H. rewrite H. cbn [bind].
  eexists. split; [reflexivity|].
  match goal with |- fits _ _ (fit ?k ?m' _) => pose proof (fit_fits k m' width) as [F _] end.
  destruct (fit _ _ width) as [m3 names]. unfold fits in *.
  destruct F as (Hf & rest). split; [|exact rest].
  rewrite Hf. destruct (_ <=? 0); reflexivity.
Qed.

(** A list height of two rows or less makes the heuristic divide by
    zero. *)
Lemma layout_panics (m : model) (width : Z) :
  Z.quot (listHeight m) 3 = 0 -> layout m width = Panic DivideByZero.
Proof.
  intros H. unfold layout, int_quo. rewrite H. reflexivity.
Qed.

Lemma View_panics (E : Env) (m : model) :
  Z.quot (listHeight m) 3 = 0 -> View E m = Panic DivideByZero.
Proof.
  intros H. unfold View. rewrite (layout_panics _ _ H). reflexivity.
Qed.

(** C2: the specification wants a layout for every entry count and
    width.  In a terminal of three rows the list height is two, the
    heuristic [len(m.files) / (height / 3)] divides by zero, and [View]
    panics instead of returning a layout. *)
Theorem View_divides_by_zero :
  run Demo.env "/srv" [WindowSizeMsg 80 3] = Panic DivideByZero /\
  (exists m, Update Demo.env States.var (WindowSizeMsg 11 3) = Ok (m, nilCmd) /\
             listHeight m = 2 /\
             int_quo (len (files m)) (Z.quot (listHeight m) 3) = Panic DivideByZero /\
             layout m 11 = Panic DivideByZero /\
             View Demo.env m = Panic DivideByZero).
Proof.
  split; [vm_compute; reflexivity|].
  eexists. split; [vm_compute; reflexivity|].
  repeat split; vm_compute; reflexivity.
Qed.

(** With at least one entry the layout has at least one row, and the
    grid has a cell for every entry. *)
Lemma fits_rows (width : Z) (m0 m : model) (names : list (list string)) :
  fits width m0 (m, names) -> 0 < len (files m0) ->
  0 < rows m /\ len (files m0) <= columns m * rows m.
Proof.
  unfold fits. intros (Hf & Hc & Hr & _) HN. rewrite Hf in *.
  pose proof (ceilDiv_spec (len (files m0)) (columns m) ltac:(lia) ltac:(lia)) as [_ H].
  rewrite <- Hr in H. nia.
Qed.

Lemma layout_Ok (m m' : model) (width : Z) (names : list (list string)) :
  layout m width = Ok (m', names) -> fits width m (m', names).
Proof.
  intros H. destruct (Z.eq_dec (Z.quot (listHeight m) 3) 0) as [Hz|Hz].
  - rewrite (layout_panics _ _ Hz) in H. discriminate H.
  - destruct (layout_fit m width Hz) as (res & Hres & F). congruence.
Qed.

(** After a rendering of a directory that has entries, [m.rows] is at
    least 1. *)
Lemma View_rows (E : Env) (m m' : model) (out : string) :
  View E m = Ok (m', out) -> 0 < len (files m) ->
  files m' = files m /\ 1 <= columns m' /\ 0 < rows m' /\
  len (files m) <= columns m' * rows m'.
Proof.
  unfold View. intros H HN.
  destruct (layout m (viewWidth m)) as [[m1 names]|p] eqn:HL; [|discriminate H].
  apply layout_Ok in HL. pose proof (fits_rows _ _ _ _ HL HN) as [Hr Hcr].
  destruct HL as (Hf & Hc & _).
  cbn [bind] in H.
  set (m2 := if findPrevName m1 then _ else m1) in H.
  assert (H2 : files m2 = files m1 /\ columns m2 = columns m1 /\ rows m2 = rows m1).
  { subst m2. destruct (findPrevName m1); [|auto].
    rewrite updateOffset_frame. msimpl. auto. }
  destruct H2 as (H2f & H2c & H2r).
  assert (Hm' : m' = m2).
  { destruct (_ <=? _) in H; [destruct (slice_list _ _ _) in H; [|discriminate H]|];
      cbn [bind] in H; destruct (barOf E m2) in H; try discriminate H;
      cbn [bind] in H; destruct (len (files m2) =? 0) in H;
      try destruct (previewMode m2) in H; congruence. }
  subst m'. rewrite H2f, H2c, H2r, Hf. auto.
Qed.

(** ** Update *)

Lemma Matches_single (k : Key) (s : string) :
  Matches k [s] = String.eqb (Key_String k) s.
Proof. unfold Matches. cbn [existsb]. apply orb_false_r. Qed.

(** Go's division on a natural index and a positive row count is the
    usual quotient and remainder. *)
Lemma int_quo_rem_nonneg (a b : Z) :
  0 <= a <= int_max -> 0 < b ->
  int_quo a b = Ok (a / b) /\ int_rem a b = Ok (a mod b).
Proof.
  intros Ha Hb. unfold int_quo, int_rem.
  destruct (Z.eqb_spec b 0) as [e|_]; [lia|].
  rewrite Z.quot_div_nonneg, Z.rem_mod_nonneg by lia.
  rewrite wrap_id; [auto|].
  unfold is_int, int_min, int_max in *.
  pose proof (Z.div_pos a b ltac:(lia) Hb).
  pose proof (Z.div_le_upper_bound a b (2 ^ 63 - 1) Hb ltac:(nia)). lia.
Qed.

(** C3: in search mode a key of type KeyRunes that is neither [/] nor
    the text [backspace] is appended to the query and the entry names
    are matched against the new query.  With at least one match the
    cursor becomes [(index / m.rows, index % m.rows)] for the index of
    the first match (Go's division, defined when [m.rows] is not zero);
    with no match the cursor stays where it was. *)
Theorem search_keystroke (E : Env) (m : model) (k : Key) :
  searchMode m = true -> isKeyRunes k = true ->
  Matches k keySearch = false -> Matches k keyBack = false ->
  let query := search m +:+ Runes k in
  match fuzzy_Find E query (map Name (files m)) with
  | top :: _ =>
      rows m <> 0 ->
      exists m', Update E m (KeyMsg k) = Ok (m', TickClearSearch (searchId m)) /\
                 search m' = query /\
                 int_quo (Index top) (rows m) = Ok (c m') /\
                 int_rem (Index top) (rows m) = Ok (r m')
  | [] =>
      exists m', Update E m (KeyMsg k) = Ok (m', TickClearSearch (searchId m)) /\
                 search m' = query /\ c m' = c m /\ r m' = r m
  end.
Proof.
  intros Hs Hr Hk Hb query. unfold Update. rewrite Hs, Hk, Hb, Hr.
  unfold searchRunes. msimpl. fold query.
  destruct (fuzzy_Find E query (map Name (files m))) as [|top rest].
  - msimpl. rewrite updateOffset_frame. msimpl.
    eexists. split; [reflexivity|]. msimpl. auto.
  - intros Hrows. unfold int_quo, int_rem.
    apply Z.eqb_neq in Hrows. rewrite Hrows. msimpl.
    rewrite updateOffset_frame. msimpl.
    eexists. split; [reflexivity|]. msimpl. auto.
Qed.

(** With a match and [m.rows = 0] the division panics. *)
Lemma keystroke_panics_without_rows (E : Env) (m : model) (k : Key) :
  searchMode m = true -> isKeyRunes k = true ->
  Matches k keySearch = false -> Matches k keyBack = false ->
  fuzzy_Find E (search m +:+ Runes k) (map Name (files m)) <> [] ->
  rows m = 0 ->
  Update E m (KeyMsg k) = Panic DivideByZero.
Proof.
  intros Hs Hr Hk Hb Hm Hrows. unfold Update. rewrite Hs, Hk, Hb, Hr.
  unfold searchRunes. msimpl.
  destruct (fuzzy_Find E _ _) as [|top rest]; [congruence|].
  unfold int_quo. msimpl. rewrite Hrows. reflexivity.
Qed.

(** C3 at a concrete state: [u] typed into a fresh search in [/srv]
    puts the cursor on [util.c], entry 3 of a grid of four rows. *)
Lemma search_keystroke_witness :
  exists m',
    Update Demo.env States.srvSearch (Demo.runes "u") = Ok (m', TickClearSearch 1) /\
    search m' = "u" /\
    int_quo 3 4 = Ok (c m') /\ int_rem 3 4 = Ok (r m').
Proof.
  apply (search_keystroke Demo.env States.srvSearch
           {| Type_ := KeyRunes; Runes := "u"; Alt := false |});
    first [reflexivity | vm_compute; discriminate].
Defined.

Lemma take_s_length (s : string) (n : nat) :
  (n <= String.length s)%nat -> String.length (take_s n s) = n.
Proof.
  revert n. induction s as [|a s IH]; intros [|n] H; cbn in *; try lia.
  rewrite IH; lia.
Qed.

(** C4 (amended): in search mode with a non-empty query, Backspace
    removes the last byte of the query and changes nothing else: no
    matching is run, the cursor, the scroll offset and the remembered
    positions stay as they are, and no command is issued.  (The length
    of a Go string is an [int].) *)
Theorem search_backspace (E : Env) (m : model) (k : Key) :
  searchMode m = true -> Matches k keyBack = true ->
  0 < slen (search m) <= int_max ->
  Update E m (KeyMsg k)
  = Ok (set_search m (take_s (String.length (search m) - 1) (search m)), nilCmd).
Proof.
  intros Hs Hb [Hl Hmax].
  assert (Hk : Matches k keySearch = false).
  { unfold keyBack, keySearch in *. rewrite Matches_single in *.
    apply String.eqb_eq in Hb. rewrite Hb. reflexivity. }
  unfold Update. rewrite Hs, Hk, Hb.
  apply Z.ltb_lt in Hl. rewrite Hl. apply Z.ltb_lt in Hl.
  unfold slice_to, slen in *.
  unfold int_sub. rewrite wrap_id by (unfold is_int, int_min, int_max in *; lia).
  destruct ((Z.of_nat (String.length (search m)) - 1 <? 0)
            || (Z.of_nat (String.length (search m)) <?
                Z.of_nat (String.length (search m)) - 1)) eqn:Hc.
  - bool_to_prop. lia.
  - cbn [bind].
    replace (Z.to_nat (Z.of_nat (String.length (search m)) - 1))
      with (String.length (search m) - 1)%nat by lia.
    reflexivity.
Qed.

(** C4 (amended) at a concrete state: the query [uz] becomes [u] and
    nothing else changes. *)
Lemma search_backspace_witness :
  Update Demo.env States.srvTyped (Demo.key KeyBackspace)
  = Ok (set_search States.srvTyped "u", nilCmd).
Proof.
  apply (search_backspace Demo.env States.srvTyped
           {| Type_ := KeyBackspace; Runes := ""; Alt := false |});
    first [reflexivity | unfold slen, int_max; simpl; lia].
Defined.

(** C4 as stated fails in [/srv] with the query [uz] and the cursor
    moved to [main.c]: after Backspace the query is [u], whose only match
    is [util.c] at index 3, but the cursor is still in row 2. *)
Lemma search_backspace_counterexample :
  ~ backspaceRematches Demo.env States.srvTyped
      {| Type_ := KeyBackspace; Runes := ""; Alt := false |}.
Proof.
  unfold backspaceRematches. intros H.
  destruct (H eq_refl ltac:(vm_compute; reflexivity) eq_refl) as (m' & cmd & HU & Hm).
  vm_compute in HU. injection HU as <- <-.
  vm_compute in Hm. destruct Hm as [_ Hm]. discriminate Hm.
Qed.

(** ** The deferred clear-search event *)

Lemma wrap_succ_neq_any (x : Z) : wrap (x + 1) <> x.
Proof.
  intros E.
  assert (H : is_int x) by (rewrite <- E; apply wrap_is_int).
  exact (wrap_succ_neq x H E).
Qed.

(** C6: delivering [clearSearchMsg tag] turns search mode off when the
    tag is the current search id and leaves the model as it is
    otherwise; in both cases nothing else changes and no command is
    issued.  A search started with [/] after the event was scheduled has
    a different id, so the event then changes nothing. *)
Theorem clearSearch_delivery (E : Env) (m : model) (tag : Z) :
  (tag = searchId m ->
   Update E m (clearSearchMsg tag) = Ok (set_searchMode m false, nilCmd)) /\
  (tag <> searchId m -> Update E m (clearSearchMsg tag) = Ok (m, nilCmd)) /\
  (searchMode m = true ->
   exists m', Update E m (clearSearchMsg tag) = Ok (m', nilCmd) /\
              (searchMode m' = false <-> tag = searchId m)) /\
  (searchMode m = false -> tag = searchId m ->
   forall k, Matches k keySearch = true ->
   exists m' cmd,
     Update E m (KeyMsg k) = Ok (m', cmd) /\
     searchMode m' = true /\ searchId m' = searchId m +ᵢ 1 /\
     Update E m' (clearSearchMsg tag) = Ok (m', nilCmd)).
Proof.
  assert (Heq : tag = searchId m ->
                Update E m (clearSearchMsg tag) = Ok (set_searchMode m false, nilCmd)).
  { intros ->. unfold Update. rewrite Z.eqb_refl. reflexivity. }
  assert (Hne : forall m0, tag <> searchId m0 ->
                           Update E m0 (clearSearchMsg tag) = Ok (m0, nilCmd)).
  { intros m0 H. unfold Update.
    destruct (Z.eqb_spec (searchId m0) tag) as [e|_]; [congruence | reflexivity]. }
  split; [exact Heq|]. split; [apply Hne|]. split.
  - intros Hs. destruct (Z.eq_dec tag (searchId m)) as [e|n].
    + eexists. split; [apply Heq, e|]. msimpl. tauto.
    + eexists. split; [apply Hne, n|]. rewrite Hs. split; [discriminate | tauto].
  - intros Hs Ht k Hk.
    unfold keySearch in Hk. rewrite Matches_single in Hk. apply String.eqb_eq in Hk.
    unfold Update. rewrite Hs. unfold switchKey, afterSwitch.
    unfold keyForceQuit, keyQuit, keyOpen, keyBack, keyUp, keyTop, keyVimTop, keyBottom,
      keyVimBottom, keyLeftmost, keyRightmost, keyVimUp, keyDown, keyVimDown, keyLeft,
      keyVimLeft, keyRight, keyVimRight, keySearch.
    rewrite !Matches_single, Hk. cbn [String.eqb Ascii.eqb Bool.eqb orb].
    rewrite updateOffset_frame. msimpl.
    destruct (previewMode m); (do 2 eexists; split; [reflexivity|]; msimpl;
      split; [reflexivity|]; split; [reflexivity|]).
    all: destruct (Z.eqb_spec (searchId m +ᵢ 1) tag) as [e|_]; [|reflexivity].
    all: exfalso; rewrite Ht in e; exact (wrap_succ_neq_any _ e).
Qed.

(** C6 at concrete states: the event tagged 1 ends search 1, the event
    tagged 0 does nothing to search 1, and an event tagged 0 is inert
    once [/] has started search 1. *)
Lemma clearSearch_delivery_witness :
  Update Demo.env States.srvSearch (clearSearchMsg 1)
  = Ok (set_searchMode States.srvSearch false, nilCmd) /\
  Update Demo.env States.srvSearch (clearSearchMsg 0) = Ok (States.srvSearch, nilCmd) /\
  (exists m', Update Demo.env States.srvSearch (clearSearchMsg 0) = Ok (m', nilCmd) /\
              (searchMode m' = false <-> 0 = searchId States.srvSearch)) /\
  (exists m' cmd,
      Update Demo.env States.srvBack (Demo.runes "/") = Ok (m', cmd) /\
      searchMode m' = true /\ searchId m' = searchId States.srvBack +ᵢ 1 /\
      Update Demo.env m' (clearSearchMsg 0) = Ok (m', nilCmd)).
Proof.
  split; [|split; [|split]].
  - apply (proj1 (clearSearch_delivery Demo.env States.srvSearch 1)). reflexivity.
  - apply (proj1 (proj2 (clearSearch_delivery Demo.env States.srvSearch 0))).
    simpl. lia.
  - apply (proj1 (proj2 (proj2 (clearSearch_delivery Demo.env States.srvSearch 0)))).
    reflexivity.
  - apply (proj2 (proj2 (proj2 (clearSearch_delivery Demo.env States.srvBack 0))));
      reflexivity.
Defined.

(** ** The preview loader *)

Lemma replace_tab (s : string) : replace_go tab "    " s O (-1) = expandTabs s.
Proof.
  unfold tab. induction s as [|a s IH]; [reflexivity|].
  cbn [replace_go expandTabs String.prefix negb Z.eqb andb].
  change (String.length (String (ascii_of_nat 9) EmptyString) - 1)%nat with O.
  destruct (ascii_dec (ascii_of_nat 9) a) as [<-|Hne].
  - rewrite Ascii.eqb_refl.
    replace (String.prefix "" s) with true by (destruct s; reflexivity).
    change (if -1 <? 0 then -1 else -1 - 1) with (-1).
    rewrite IH. reflexivity.
  - replace (Ascii.eqb a (ascii_of_nat 9)) with false
      by (symmetry; apply Ascii.eqb_neq; congruence).
    rewrite IH. reflexivity.
Qed.

Lemma Replace_tab (s : string) : Replace s tab "    " (-1) = expandTabs s.
Proof. unfold Replace. cbn [tab]. apply replace_tab. Qed.

(** C7: the preview load of a path leaves everything but the preview
    content as it is and issues no command.  The content becomes the
    error text when the file cannot be opened; otherwise, when the bytes
    read are valid UTF-8, those bytes with every tab replaced by four
    spaces; otherwise the rendering of [No preview available], whatever
    the bytes are. *)
Theorem preview_load (E : Env) (m : model) (filePath : string) :
  exists content : string,
    Update E m (previewMsg filePath) = Ok (set_previewContent m content, nilCmd) /\
    match os_Open_ReadAll E filePath with
    | inl err => content = err
    | inr bytes =>
        if Valid bytes then content = expandTabs bytes
        else content = warning_Render E "No preview available"
    end.
Proof.
  unfold Update.
  destruct (os_Open_ReadAll E filePath) as [err|bytes].
  - eexists. split; reflexivity.
  - destruct (Valid bytes).
    + eexists. split; [reflexivity | apply Replace_tab].
    + eexists. split; reflexivity.
Qed.

(** The three cases on the demo file system. *)
Example preview_of_text :
  Update Demo.env States.srvBack (previewMsg "/srv/lib.c")
  = Ok (set_previewContent States.srvBack "int    x;", nilCmd).
Proof. reflexivity. Qed.

Example preview_of_binary :
  Update Demo.env States.srvBack (previewMsg "/srv/main.c")
  = Ok (set_previewContent States.srvBack "No preview available", nilCmd).
Proof. reflexivity. Qed.

Example preview_of_missing :
  Update Demo.env States.srvBack (previewMsg "/srv/none")
  = Ok (set_previewContent States.srvBack "open /srv/none: no such file or directory",
        nilCmd).
Proof. reflexivity. Qed.

(** ** The location bar *)

(** C9: there is a state with the search filter active in which the
    location and the filter together exceed the display width and the
    lower bound of the slice [location[barLen-width:]] is greater than
    the length of the location.  In [/srv/data], 10 columns wide, the
    tenth character typed into the search makes the bound 10 for a
    location of 9 bytes; the slice panics and so does [View]. *)
Theorem location_slice_out_of_range :
  exists m : model,
    Update Demo.env States.dataTyped (Demo.runes "a") = Ok (m, TickClearSearch 1) /\
    searchMode m = true /\
    let location := locationOf Demo.env m in
    let filter := filterOf m in
    let barLen := slen location +ᵢ slen filter in
    (slen location, slen filter, viewWidth m) = (9, 11, 10) /\
    viewWidth m < barLen /\
    slen location < barLen -ᵢ viewWidth m /\
    slice_from location (barLen -ᵢ viewWidth m) = Panic SliceBoundsOutOfRange /\
    barOf Demo.env m = Panic SliceBoundsOutOfRange /\
    View Demo.env m = Panic SliceBoundsOutOfRange.
Proof.
  eexists. split; [vm_compute; reflexivity|].
  split; [reflexivity|]. cbv zeta.
  repeat split; vm_compute; reflexivity.
Qed.

(** ** No selected file *)

Lemma enter_String (k : Key) :
  Type_ k = KeyEnter -> Alt k = false -> Key_String k = "enter".
Proof. destruct k as [t rs a]. cbn. intros -> ->. reflexivity. Qed.

Lemma fileName_None (m : model) :
  1 <= rows m -> 0 <= c m -> 0 <= r m -> linearIndex m <= int_max ->
  (fileName m = Ok None <-> len (files m) <= linearIndex m).
Proof.
  unfold linearIndex, fileName. intros Hrows Hc Hr Hmax.
  unwrap_all nia.
  destruct (Z.leb_spec (len (files m)) (c m * rows m + r m)) as [Hle|Hlt].
  - tauto.
  - split; [|lia]. intros H. exfalso.
    unfold index in H.
    destruct (Z.ltb_spec (c m * rows m + r m) 0) as [|_]; [nia|].
    destruct (lookup_lt_is_Some_2 (files m) (Z.to_nat (c m * rows m + r m)))
      as [f Hf]; [unfold len in Hlt; nia|].
    rewrite Hf in H. cbn [bind] in H. discriminate H.
Qed.

Lemma filePath_None (E : Env) (m : model) :
  filePath E m = Ok None <-> fileName m = Ok None.
Proof.
  unfold filePath. destruct (fileName m) as [[name|]|p]; cbn [bind];
    split; intros H; try reflexivity; discriminate H.
Qed.

(** C10 (amended): with [rows >= 1], [column >= 0] and [row >= 0] (and
    a linear index that fits an [int]), [fileName] and [filePath] find
    nothing exactly when the linear index is not below the number of
    entries.  In that case the preview command returns no message and
    Enter does nothing but leave search mode: every other field of the
    model is unchanged and no command is issued. *)
Theorem no_selected_file (E : Env) (m : model) (k : Key) :
  1 <= rows m -> 0 <= c m -> 0 <= r m -> linearIndex m <= int_max ->
  (fileName m = Ok None <-> len (files m) <= linearIndex m) /\
  (filePath E m = Ok None <-> len (files m) <= linearIndex m) /\
  (len (files m) <= linearIndex m ->
   previewCmd E m = Ok None /\
   (Type_ k = KeyEnter -> Alt k = false ->
    Update E m (KeyMsg k) = Ok (set_searchMode m false, nilCmd))).
Proof.
  intros Hrows Hc Hr Hmax.
  pose proof (fileName_None m Hrows Hc Hr Hmax) as HN.
  split; [exact HN|]. split; [rewrite filePath_None; exact HN|].
  intros Hi. apply HN in Hi.
  assert (HP : forall m0, fileName m0 = Ok None -> filePath E m0 = Ok None)
    by (intros m0; apply filePath_None).
  split.
  - unfold previewCmd. rewrite (HP m Hi). reflexivity.
  - intros Ht Ha. pose proof (enter_String k Ht Ha) as Hk.
    assert (Hsw : switchKey E m k = Ok (set_searchMode m false, nilCmd)).
    { unfold switchKey, keyForceQuit, keyQuit, keyOpen.
      rewrite !Matches_single, Hk. cbn [String.eqb Ascii.eqb Bool.eqb].
      rewrite (HP (set_searchMode m false)); [reflexivity|].
      unfold fileName in *. msimpl. exact Hi. }
    unfold Update, keySearch, keyBack, isKeyRunes.
    rewrite !Matches_single, Hk, Ht. cbn [String.eqb Ascii.eqb Bool.eqb].
    destruct (searchMode m); exact Hsw.
Qed.

(** C10 (amended) at a concrete state: the cursor on the blank cell of
    [/opt]. *)
Lemma no_selected_file_witness :
  (fileName States.optBlank = Ok None <->
   len (files States.optBlank) <= linearIndex States.optBlank) /\
  (filePath Demo.env States.optBlank = Ok None <->
   len (files States.optBlank) <= linearIndex States.optBlank) /\
  previewCmd Demo.env States.optBlank = Ok None /\
  Update Demo.env States.optBlank (Demo.key KeyEnter)
  = Ok (set_searchMode States.optBlank false, nilCmd).
Proof.
  destruct (no_selected_file Demo.env States.optBlank
              {| Type_ := KeyEnter; Runes := ""; Alt := false |})
    as (H1 & H2 & H3);
    try (unfold linearIndex, int_max; simpl; lia).
  split; [exact H1|]. split; [exact H2|].
  destruct H3 as [H3 H4]; [unfold linearIndex, len; simpl; lia|].
  split; [exact H3 | apply H4; reflexivity].
Defined.

(** C10 as stated fails in [/opt] with the cursor on the blank cell of
    column 2 and search mode on: Enter switches search mode off. *)
Lemma enter_counterexample : ~ enterLeavesModel Demo.env States.optBlank.
Proof.
  unfold enterLeavesModel. intros H.
  destruct H as [cmd H]; try (unfold linearIndex, len; simpl; lia).
  vm_compute in H. discriminate H.
Qed.

(** ** Position memory *)

(** Enter on a directory for which a position is remembered: the
    column and the row are the remembered ones; the offset is the
    remembered one passed through [updateOffset], which still sees the
    row count of the directory just left. *)
Lemma enter_remembered (E : Env) (m : model) (k : Key)
      (dirPath : string) (p : position.t) (entries : list DirEntry) :
  Type_ k = KeyEnter -> Alt k = false ->
  filePath E m = Ok (Some dirPath) ->
  os_Stat_IsDir E dirPath = Some true ->
  positions m !! dirPath = Some p ->
  os_ReadDir E dirPath = Some entries ->
  exists m' cmd,
    Update E m (KeyMsg k) = Ok (m', cmd) /\
    path m' = dirPath /\ files m' = entries /\ rows m' = rows m /\
    c m' = position.c p /\ r m' = position.r p /\
    offset m' = scrollOffset (position.r p) (position.offset p) (rows m) (listHeight m).
Proof.
  intros Ht Ha Hfp Hst Hpos Hrd. pose proof (enter_String k Ht Ha) as Hk.
  assert (Hfp' : filePath E (set_searchMode m false) = Ok (Some dirPath)).
  { unfold filePath, fileName in *. msimpl. exact Hfp. }
  assert (Hsw : exists m' cmd,
             switchKey E m k = Ok (m', cmd) /\
             path m' = dirPath /\ files m' = entries /\ rows m' = rows m /\
             c m' = position.c p /\ r m' = position.r p /\
             offset m' =
               scrollOffset (position.r p) (position.offset p) (rows m) (listHeight m)).
  { unfold switchKey, keyForceQuit, keyQuit, keyOpen.
    rewrite !Matches_single, Hk. cbn [String.eqb Ascii.eqb Bool.eqb].
    rewrite Hfp'. cbn [bind]. unfold fileInfo_IsDir. rewrite Hst. cbn [bind].
    unfold lookupPosition, list_, afterSwitch. msimpl.
    rewrite Hpos. msimpl. rewrite Hrd. msimpl.
    rewrite updateOffset_frame, updateOffset_offset. unfold listHeight. msimpl.
    destruct (previewMode m); do 2 eexists; (split; [reflexivity|]); msimpl;
      repeat (split; [reflexivity|]); reflexivity. }
  unfold Update, keySearch, keyBack, isKeyRunes.
  rewrite !Matches_single, Hk, Ht. cbn [String.eqb Ascii.eqb Bool.eqb].
  destruct (searchMode m); exact Hsw.
Qed.

(** [updateOffset] keeps an offset that shows the row and does not
    scroll past the rows it knows about. *)
Lemma scrollOffset_fixed (row off nrows listH : Z) :
  is_int (off + listH) -> is_int (nrows - listH) ->
  off <= row < off + listH ->
  off <= nrows - listH \/ nrows <= listH ->
  scrollOffset row off nrows listH = off.
Proof.
  intros H1 H2 Hrow Hfit. unfold scrollOffset.
  unwrap_all lia.
  destruct (Z.leb_spec (off + listH) row) as [|_]; [lia|].
  destruct (Z.ltb_spec row off) as [|_]; [lia|].
  destruct (Z.ltb_spec (nrows - listH) off), (Z.ltb_spec listH nrows);
    cbn [andb]; lia.
Qed.

(** C8: the specification wants the remembered column, row and offset
    back on re-entering a directory.  [/srv/data] (six rows in a list of
    three) is entered from [/srv] (four rows), the cursor is moved to
    the bottom, which remembers column 0, row 5, offset 3; after
    Backspace and Enter the column and the row are back but the offset
    is 1: [updateOffset] runs after the restore with the four rows of
    [/srv] still in [m.rows] and cuts the offset down to [4 - 3].  The
    next [View] shows rows 1 to 3 while the cursor is in row 5. *)
Theorem reentry_loses_offset :
  run Demo.env "/srv" [WindowSizeMsg 10 4; Demo.key KeyEnter; Demo.key KeyShiftDown]
  = Ok States.dataBottom /\
  positions States.dataBottom !! "/srv/data" = Some (position.mk 0 5 3) /\
  eventLoop Demo.env States.dataBottom [Demo.key KeyBackspace] = Ok States.srvBack /\
  positions States.srvBack !! "/srv/data" = Some (position.mk 0 5 3) /\
  exists m : model,
    Update Demo.env States.srvBack (Demo.key KeyEnter) = Ok (m, nilCmd) /\
    path m = "/srv/data" /\
    (c m, r m, offset m) = (0, 5, 1) /\
    positions m !! "/srv/data" = Some (position.mk 0 5 1) /\
    exists m', View Demo.env m
               = Ok (m', "/srv/data" +:+ newline +:+ "b.go" +:+ newline +:+ "c.go"
                           +:+ newline +:+ "d.go") /\
               (c m', r m', offset m') = (0, 5, 1).
Proof.
  split; [exact run_dataBottom|]. split; [vm_compute; reflexivity|].
  split; [exact run_srvBack|]. split; [vm_compute; reflexivity|].
  eexists. split; [vm_compute; reflexivity|].
  split; [reflexivity|]. split; [reflexivity|]. split; [vm_compute; reflexivity|].
  eexists. split; [vm_compute; reflexivity|]. reflexivity.
Qed.

(** * Further properties *)

(** ** The moves *)

Lemma moves_cursorMoved (m : model) (mv : model -> model) :
  In mv moves -> cursorMoved m (mv m).
Proof.
  unfold moves. cbn [In].
  intros [<-|[<-|[<-|[<-|[<-|[<-|[<-|[<-|[]]]]]]]]];
    unfold cursorMoved; destruct m; open_move; repeat split_if; reflexivity.
Qed.

(** X1: in a grid whose last column is the only short one, each of the
    eight moves takes a cursor on an entry to a cursor on an entry, and
    changes nothing in the model but the cursor. *)
Theorem moves_keep_cursor_on_entry (m : model) (mv : model -> model) :
  lastColumnShort m -> validCursor m -> In mv moves ->
  validCursor (mv m) /\ 0 <= linearIndex (mv m) < len (files m) /\
  mv m = set_r (set_c m (c (mv m))) (r (mv m)).
Proof.
  intros G V Hin.
  destruct (moves_valid m G V mv Hin) as [V' (Sc & Sr & Sf)].
  split; [exact V'|]. split; [|exact (moves_cursorMoved m mv Hin)].
  destruct V' as ((Hc0 & _) & (Hr0 & _) & Hi). rewrite Sf in Hi.
  split; [|exact Hi]. unfold linearIndex. rewrite Sr.
  destruct G as (_ & Gr & _). nia.
Qed.

Lemma moves_keep_cursor_on_entry_witness :
  validCursor (moveUp States.var) /\
  0 <= linearIndex (moveUp States.var) < len (files States.var) /\
  moveUp States.var
  = set_r (set_c States.var (c (moveUp States.var))) (r (moveUp States.var)).
Proof.
  apply (moves_keep_cursor_on_entry States.var moveUp).
  - unfold lastColumnShort, int_max, len; simpl; lia.
  - unfold validCursor, linearIndex, len; simpl; lia.
  - simpl. auto.
Defined.

Lemma mod_minus_one (n : Z) : 0 < n -> (-1) mod n = n - 1.
Proof.
  intros H. symmetry. apply (Z.mod_unique (-1) n (-1) (n - 1)); lia.
Qed.

Section UpDown.
Variable m : model.
Hypothesis G : lastColumnShort m.
Hypothesis V : validCursor m.

(** Up goes to the previous entry in column-major order and wraps from
    the first entry to the last. *)
Lemma moveUp_index :
  linearIndex (moveUp m) = (linearIndex m - 1) mod len (files m).
Proof.
  grid_facts. move_cases.
  all: try (exfalso; nia).
  all: first [ rewrite Z.mod_small by nia; nia
             | replace (c m * rows m + r m - 1) with (-1) by nia;
               rewrite mod_minus_one by nia; nia ].
Qed.

End UpDown.

(** X2: in such a grid Down moves the cursor to the next entry in
    column-major order, from the last entry to the first, and Up to the
    previous entry, from the first to the last. *)
Theorem up_down_follow_entry_order (m : model) :
  lastColumnShort m -> validCursor m ->
  linearIndex (moveDown m) = (linearIndex m + 1) mod len (files m) /\
  linearIndex (moveUp m) = (linearIndex m - 1) mod len (files m).
Proof.
  intros G V. split; [apply moveDown_index | apply moveUp_index]; assumption.
Qed.

Lemma up_down_follow_entry_order_witness :
  linearIndex (moveDown States.var) = (linearIndex States.var + 1) mod 7 /\
  linearIndex (moveUp States.var) = (linearIndex States.var - 1) mod 7.
Proof.
  apply (up_down_follow_entry_order States.var).
  - unfold lastColumnShort, int_max, len; simpl; lia.
  - unfold validCursor, linearIndex, len; simpl; lia.
Defined.

(** Two models with the same grid, differing in the cursor only, whose
    cursors are on the same entry are the same model. *)
Lemma same_entry_same_model (m m1 : model) :
  validCursor m -> validCursor m1 -> sameGrid m m1 -> cursorMoved m m1 ->
  linearIndex m1 = linearIndex m -> m1 = m.
Proof.
  intros V V1 (Sc & Sr & Sf) F Hi.
  unfold linearIndex in Hi. rewrite Sr in Hi.
  destruct V1 as (_ & Vr1 & _). rewrite Sr in Vr1.
  destruct V as (_ & Vr & _).
  destruct (cursor_of_index _ _ _ _ _ Vr1 Vr Hi) as [Hc Hr].
  apply cursorMoved_same; assumption.
Qed.

Lemma index_in_range (m : model) :
  lastColumnShort m -> validCursor m -> 0 <= linearIndex m < len (files m).
Proof. intros G V. grid_facts. nia. Qed.

(** X3: in such a grid Up undoes Down and Down undoes Up. *)
Theorem moveUp_moveDown_inverse (m : model) :
  lastColumnShort m -> validCursor m ->
  moveUp (moveDown m) = m /\ moveDown (moveUp m) = m.
Proof.
  intros G V. pose proof (index_in_range m G V) as Hi.
  assert (In moveUp moves /\ In moveDown moves) as [InU InD]
      by (unfold moves; cbn [In]; auto).
  split.
  - destruct (moveDown_valid m G V) as [Vd Sd].
    pose proof (sameGrid_lastColumnShort _ _ Sd G) as Gd.
    destruct (moveUp_valid _ Gd Vd) as [Vu Su].
    apply same_entry_same_model; try assumption.
    + destruct Sd as (? & ? & ?), Su as (? & ? & ?).
      unfold sameGrid; repeat split; congruence.
    + eapply cursorMoved_trans; apply moves_cursorMoved; assumption.
    + rewrite (moveUp_index _ Gd Vd), (moveDown_index _ G V).
      destruct Sd as (_ & _ & ->).
      rewrite Zminus_mod_idemp_l.
      replace (linearIndex m + 1 - 1) with (linearIndex m) by lia.
      apply Z.mod_small. exact Hi.
  - destruct (moveUp_valid m G V) as [Vu Su].
    pose proof (sameGrid_lastColumnShort _ _ Su G) as Gu.
    destruct (moveDown_valid _ Gu Vu) as [Vd Sd].
    apply same_entry_same_model; try assumption.
    + destruct Sd as (? & ? & ?), Su as (? & ? & ?).
      unfold sameGrid; repeat split; congruence.
    + eapply cursorMoved_trans; apply moves_cursorMoved; assumption.
    + rewrite (moveDown_index _ Gu Vu), (moveUp_index _ G V).
      destruct Su as (_ & _ & ->).
      rewrite Zplus_mod_idemp_l.
      replace (linearIndex m - 1 + 1) with (linearIndex m) by lia.
      apply Z.mod_small. exact Hi.
Qed.

Lemma moveUp_moveDown_inverse_witness :
  moveUp (moveDown States.var) = States.var /\
  moveDown (moveUp States.var) = States.var.
Proof.
  apply (moveUp_moveDown_inverse States.var).
  - unfold lastColumnShort, int_max, len; simpl; lia.
  - unfold validCursor, linearIndex, len; simpl; lia.
Defined.

(** X4: in such a grid Right and Left go to the same row of the next
    and of the previous column, cyclically, Bottom to the last row of
    the column and Rightmost to the same row of the last column; when
    that cell holds no entry the cursor goes to the last entry instead.
    Top and Leftmost go to row 0 and to column 0. *)
Theorem moves_clamp_to_last_entry (m : model) :
  lastColumnShort m -> validCursor m ->
  cursorOf (moveRight m)
  = cellOrLast m (if c m + 1 <? columns m then c m + 1 else 0) (r m) /\
  cursorOf (moveLeft m)
  = cellOrLast m (if 0 <? c m then c m - 1 else columns m - 1) (r m) /\
  cursorOf (moveBottom m) = cellOrLast m (c m) (rows m - 1) /\
  cursorOf (moveRightmost m) = cellOrLast m (columns m - 1) (r m) /\
  cursorOf (moveTop m) = (c m, 0) /\
  cursorOf (moveLeftmost m) = (0, r m).
Proof.
  intros G V. grid_facts. unfold cursorOf, cellOrLast.
  repeat split.
  all: move_cases.
  all: repeat match goal with
         | |- context [if ?b then _ else _] =>
             lazymatch b with
             | context [if _ then _ else _] => fail
             | _ => let E := fresh "E" in destruct b eqn:E
             end
         end.
  all: bool_to_prop.
  all: try (exfalso; nia).
  all: try reflexivity.
  all: f_equal; nia.
Qed.

Lemma moves_clamp_to_last_entry_witness :
  cursorOf (moveRight States.var) = cellOrLast States.var 1 0 /\
  cursorOf (moveLeft States.var) = cellOrLast States.var 2 0 /\
  cursorOf (moveBottom States.var) = cellOrLast States.var 0 2 /\
  cursorOf (moveRightmost States.var) = cellOrLast States.var 2 0 /\
  cursorOf (moveTop States.var) = (0, 0) /\
  cursorOf (moveLeftmost States.var) = (0, 0).
Proof.
  apply (moves_clamp_to_last_entry States.var).
  - unfold lastColumnShort, int_max, len; simpl; lia.
  - unfold validCursor, linearIndex, len; simpl; lia.
Defined.
